(** * The Fiber adapter for ALB target-group events (fiber/adapterALB.go)

    A shallow embedding of [FiberLambdaALB]: [Proxy], [ProxyWithContext],
    [proxyInternal] and [adaptor], together with the parts of net/http,
    fasthttp, fiber and the core package that these four functions touch.

    Go values are rendered as follows.
    - [string] is a Go string, [list byte] a Go byte slice;
    - a Go [error] is its message; a nil error is [None : option error];
    - a [(value, error)] result that callers only use after testing the
      error is a [result];
    - [http.Header], a [map[string][]string], is a [gmap string (list string)];
    - the effects of a call (the fasthttp request pool, the order in which
      the runtime ranges over a map, the handler invocation, the log) are
      threaded through a [World] by a state monad [M]. *)

From Stdlib Require Import ZArith NArith List String Ascii Lia DecimalString.
From Stdlib.Strings Require Import Byte.
From stdpp Require Import base option list strings gmap fin_maps.

Open Scope string_scope.
Open Scope Z_scope.

(** ** Go basics *)

Definition error := string.

Inductive result (A : Type) : Type :=
| Ok (a : A)
| Err (e : error).
Arguments Ok {A} a.
Arguments Err {A} e.

Definition bytes := list byte.

(** [[]byte(s)] and [string(b)]. *)
Definition bytes_of (s : string) : bytes := list_byte_of_string s.
Definition string_of (b : bytes) : string := string_of_list_byte b.

(** [fmt.Sprintf(format, a)] for a format with one verb, [%v], and an
    argument that is an error: the verb is replaced by the message. *)
Fixpoint Sprintf_v (format : string) (a : error) : string :=
  match format with
  | EmptyString => EmptyString
  | String c rest =>
      match rest with
      | String c' rest' =>
          if (Ascii.eqb c "%" && Ascii.eqb c' "v")%bool
          then a +:+ rest'
          else String c (Sprintf_v rest a)
      | EmptyString => String c EmptyString
      end
  end.

(** ** net *)

Module net.

Record TCPAddr := { IP : bytes; Port : Z; Zone : string }.

End net.

(** ** net/http and io/ioutil

    Only what [adaptor] uses: the fields of a request it reads, the
    [ResponseWriter] interface it writes to, and [http.Error]. *)

Module http.

(** The request body, an [io.Reader], seen through its one use,
    [ioutil.ReadAll]: the bytes it delivers and the way it ends, at end of
    file ([None]) or with an error. *)
Record Reader := { delivered : bytes; ending : option error }.

Record Request := {
  Method : string;
  RequestURI : string;
  Host : string;
  Header : gmap string (list string);
  Body : Reader;
  RemoteAddr : string
}.

(** The interface [http.ResponseWriter]. [Header_Add k v w] stands for
    [w.Header().Add(k, v)] and [Header_Set k v w] for [w.Header().Set(k, v)]. *)
Class ResponseWriter (W : Type) := {
  Header_Add : string -> string -> W -> W;
  Header_Set : string -> string -> W -> W;
  WriteHeader : Z -> W -> W;
  Write : bytes -> W -> W
}.

Definition newline : bytes := [x0a].

(** [http.Error]: two headers, the status code, then the message and a
    newline ([fmt.Fprintln]) as the body. *)
Definition Error {W} `{WR : ResponseWriter W} (w : W) (msg : string) (code : Z) : W :=
  let w := Header_Set "Content-Type" "text/plain; charset=utf-8" w in
  let w := Header_Set "X-Content-Type-Options" "nosniff" w in
  let w := WriteHeader code w in
  Write (bytes_of msg ++ newline)%list w.

End http.

Module ioutil.

(** [ioutil.ReadAll]: the data read and the error that ended the reading;
    reaching the end of file is not an error. *)
Definition ReadAll (r : http.Reader) : bytes * option error :=
  (http.delivered r, http.ending r).

End ioutil.

(** ** What the adapter takes from outside

    [GoRuntime] gathers the library functions whose results the adapter
    only passes on or branches on, the parsers that fasthttp applies to
    the values of some headers, and the order in which the runtime visits
    the keys of a map in the [n]-th [range] statement. *)
Class GoRuntime := {
  (** [textproto.CanonicalMIMEHeaderKey], applied by [http.Header]'s
      [Add] and [Set]. *)
  CanonicalMIMEHeaderKey : string -> string;
  (** [utils.StatusMessage] of fiber. *)
  StatusMessage : Z -> string;
  (** [net.ResolveTCPAddr(network, address)]. *)
  ResolveTCPAddr : string -> string -> result net.TCPAddr;
  (** The entries of a map in the order a [range] statement visits them. *)
  rangeOrder : nat -> gmap string (list string) -> list (string * list string);
  (** fasthttp's [parseContentLength]: the length a Content-Length value
      stands for, when it is one. *)
  parseContentLength : string -> option Z;
  (** fasthttp's [parseRequestCookies], which adds the cookies of a Cookie
      value to those collected, and [appendRequestCookieBytes], which
      writes the collected cookies as one value. *)
  parseRequestCookies : list (string * string) -> string -> list (string * string);
  appendRequestCookieBytes : list (string * string) -> string;
  (** The trailer names that fasthttp's [SetTrailerBytes] keeps of a
      Trailer value. *)
  parseTrailer : string -> list (string * string)
}.

(** A [range] visits every entry of the map once. *)
Definition range_sound `{RT : GoRuntime} : Prop :=
  forall n (m : gmap string (list string)), rangeOrder n m ≡ₚ map_to_list m.

(** ** fasthttp

    The engine's request, response and request context, and its request
    pool. A request header keeps the headers that fasthttp treats
    specially (Host, Content-Type, User-Agent, Content-Length, Connection,
    Cookie, Trailer) in fields of their own and the others as a list of
    (key, value) pairs under their normalised names. *)

Module fasthttp.

Record RequestHeader := {
  method : string;
  requestURI : string;
  contentLength : Z;
  contentLengthBytes : string;
  connectionClose : bool;
  hostBytes : string;
  contentType : string;
  userAgent : string;
  cookiesCollected : bool;
  cookies : list (string * string);
  trailer : list (string * string);
  h : list (string * string)
}.

Record Request := {
  Header : RequestHeader;
  host : string;
  body : bytes
}.

Record Response := {
  statusCode : Z;
  respHeader : list (string * string);
  respBody : bytes
}.

Record RequestCtx := {
  Req : Request;
  Resp : Response;
  remoteAddr : net.TCPAddr
}.

(** The zero values [Request{}] and [Response{}]. *)
Definition zeroHeader : RequestHeader :=
  {| method := EmptyString; requestURI := EmptyString;
     contentLength := 0; contentLengthBytes := EmptyString;
     connectionClose := false;
     hostBytes := EmptyString; contentType := EmptyString; userAgent := EmptyString;
     cookiesCollected := false; cookies := []; trailer := [];
     h := [] |}.
Definition zeroRequest : Request :=
  {| Header := zeroHeader; host := EmptyString; body := [] |}.
Definition zeroResponse : Response :=
  {| statusCode := 0; respHeader := []; respBody := [] |}.

(** *** Header names

    [toUpperTable] and [toLowerTable] change the case of the letters a to
    z; [normalizeHeaderKey] puts the first byte and every byte that follows
    a dash in upper case and the others in lower case;
    [caseInsensitiveCompare] compares two names byte by byte after setting
    bit 0x20 of each. *)
Definition toUpper (c : ascii) : ascii :=
  let n := N_of_ascii c in
  if ((97 <=? n) && (n <=? 122))%N then ascii_of_N (n - 32) else c.

Definition toLower (c : ascii) : ascii :=
  let n := N_of_ascii c in
  if ((65 <=? n) && (n <=? 90))%N then ascii_of_N (n + 32) else c.

Fixpoint normalizeFrom (upper : bool) (key : string) : string :=
  match key with
  | EmptyString => EmptyString
  | String c rest =>
      if upper then String (toUpper c) (normalizeFrom false rest)
      else if Ascii.eqb c "-" then String c (normalizeFrom true rest)
      else String (toLower c) (normalizeFrom false rest)
  end.

Definition normalizeHeaderKey (key : string) : string := normalizeFrom true key.

Definition fold20 (c : ascii) : N := N.lor (N_of_ascii c) 32.

Fixpoint caseInsensitiveCompare (a b : string) : bool :=
  match a, b with
  | EmptyString, EmptyString => true
  | String x a', String y b' => (fold20 x =? fold20 y)%N && caseInsensitiveCompare a' b'
  | _, _ => false
  end.

(** [removeNewLines]: every carriage return and line feed of a value
    becomes a space. *)
Fixpoint removeNewLines (value : string) : string :=
  match value with
  | EmptyString => EmptyString
  | String c rest =>
      String (if (Ascii.eqb c "013" || Ascii.eqb c "010")%bool then " "%char else c)
        (removeNewLines rest)
  end.

(** [AppendUint]: a length in decimal. *)
Definition AppendUint (n : Z) : string :=
  NilEmpty.string_of_uint (N.to_uint (Z.to_N n)).

(** *** The list of ordinary pairs

    [setArg]: the first pair stored under the key takes the value; when
    there is none, the pair is appended. [appendArg] always appends.
    [delAllArgs] removes the pairs stored under the key, [peekAllArg]
    gives their values in order. *)
Fixpoint setArg (kvs : list (string * string)) (key value : string)
  : list (string * string) :=
  match kvs with
  | [] => [(key, value)]
  | (k, v) :: rest =>
      if String.eqb key k then (k, value) :: rest
      else (k, v) :: setArg rest key value
  end.

Definition appendArg (kvs : list (string * string)) (key value : string)
  : list (string * string) :=
  (kvs ++ [(key, value)])%list.

Definition delAllArgs (kvs : list (string * string)) (key : string)
  : list (string * string) :=
  List.filter (fun kv => negb (String.eqb key (fst kv))) kvs.

Definition peekAllArg (kvs : list (string * string)) (key : string) : list string :=
  map snd (List.filter (fun kv => String.eqb key (fst kv)) kvs).

(** *** Field updates *)
Definition withArgs (kvs : list (string * string)) (hd : RequestHeader) : RequestHeader :=
  {| method := method hd; requestURI := requestURI hd;
     contentLength := contentLength hd; contentLengthBytes := contentLengthBytes hd;
     connectionClose := connectionClose hd;
     hostBytes := hostBytes hd; contentType := contentType hd; userAgent := userAgent hd;
     cookiesCollected := cookiesCollected hd; cookies := cookies hd; trailer := trailer hd;
     h := kvs |}.

Definition withMethod (m : string) (hd : RequestHeader) : RequestHeader :=
  {| method := m; requestURI := requestURI hd;
     contentLength := contentLength hd; contentLengthBytes := contentLengthBytes hd;
     connectionClose := connectionClose hd;
     hostBytes := hostBytes hd; contentType := contentType hd; userAgent := userAgent hd;
     cookiesCollected := cookiesCollected hd; cookies := cookies hd; trailer := trailer hd;
     h := h hd |}.

Definition withRequestURI (u : string) (hd : RequestHeader) : RequestHeader :=
  {| method := method hd; requestURI := u;
     contentLength := contentLength hd; contentLengthBytes := contentLengthBytes hd;
     connectionClose := connectionClose hd;
     hostBytes := hostBytes hd; contentType := contentType hd; userAgent := userAgent hd;
     cookiesCollected := cookiesCollected hd; cookies := cookies hd; trailer := trailer hd;
     h := h hd |}.

Definition withContentLength (n : Z) (b : string) (hd : RequestHeader) : RequestHeader :=
  {| method := method hd; requestURI := requestURI hd;
     contentLength := n; contentLengthBytes := b;
     connectionClose := connectionClose hd;
     hostBytes := hostBytes hd; contentType := contentType hd; userAgent := userAgent hd;
     cookiesCollected := cookiesCollected hd; cookies := cookies hd; trailer := trailer hd;
     h := h hd |}.

Definition withConnectionClose (c : bool) (hd : RequestHeader) : RequestHeader :=
  {| method := method hd; requestURI := requestURI hd;
     contentLength := contentLength hd; contentLengthBytes := contentLengthBytes hd;
     connectionClose := c;
     hostBytes := hostBytes hd; contentType := contentType hd; userAgent := userAgent hd;
     cookiesCollected := cookiesCollected hd; cookies := cookies hd; trailer := trailer hd;
     h := h hd |}.

Definition withHost (v : string) (hd : RequestHeader) : RequestHeader :=
  {| method := method hd; requestURI := requestURI hd;
     contentLength := contentLength hd; contentLengthBytes := contentLengthBytes hd;
     connectionClose := connectionClose hd;
     hostBytes := v; contentType := contentType hd; userAgent := userAgent hd;
     cookiesCollected := cookiesCollected hd; cookies := cookies hd; trailer := trailer hd;
     h := h hd |}.

Definition withContentType (v : string) (hd : RequestHeader) : RequestHeader :=
  {| method := method hd; requestURI := requestURI hd;
     contentLength := contentLength hd; contentLengthBytes := contentLengthBytes hd;
     connectionClose := connectionClose hd;
     hostBytes := hostBytes hd; contentType := v; userAgent := userAgent hd;
     cookiesCollected := cookiesCollected hd; cookies := cookies hd; trailer := trailer hd;
     h := h hd |}.

Definition withUserAgent (v : string) (hd : RequestHeader) : RequestHeader :=
  {| method := method hd; requestURI := requestURI hd;
     contentLength := contentLength hd; contentLengthBytes := contentLengthBytes hd;
     connectionClose := connectionClose hd;
     hostBytes := hostBytes hd; contentType := contentType hd; userAgent := v;
     cookiesCollected := cookiesCollected hd; cookies := cookies hd; trailer := trailer hd;
     h := h hd |}.

Definition withCookies (cs : list (string * string)) (hd : RequestHeader) : RequestHeader :=
  {| method := method hd; requestURI := requestURI hd;
     contentLength := contentLength hd; contentLengthBytes := contentLengthBytes hd;
     connectionClose := connectionClose hd;
     hostBytes := hostBytes hd; contentType := contentType hd; userAgent := userAgent hd;
     cookiesCollected := true; cookies := cs; trailer := trailer hd;
     h := h hd |}.

Definition withTrailer (t : list (string * string)) (hd : RequestHeader) : RequestHeader :=
  {| method := method hd; requestURI := requestURI hd;
     contentLength := contentLength hd; contentLengthBytes := contentLengthBytes hd;
     connectionClose := connectionClose hd;
     hostBytes := hostBytes hd; contentType := contentType hd; userAgent := userAgent hd;
     cookiesCollected := cookiesCollected hd; cookies := cookies hd; trailer := t;
     h := h hd |}.

Definition withHeader (hd : RequestHeader) (req : Request) : Request :=
  {| Header := hd; host := host req; body := body req |}.

(** *** The special headers

    The names that [setSpecialHeader] looks for, in the order it does. *)
Inductive HeaderKind : Type :=
| KContentType | KContentLength | KConnection | KCookie
| KTransferEncoding | KTrailer | KHost | KUserAgent
| KOrdinary.

Definition classify (key : string) : HeaderKind :=
  if caseInsensitiveCompare "Content-Type" key then KContentType
  else if caseInsensitiveCompare "Content-Length" key then KContentLength
  else if caseInsensitiveCompare "Connection" key then KConnection
  else if caseInsensitiveCompare "Cookie" key then KCookie
  else if caseInsensitiveCompare "Transfer-Encoding" key then KTransferEncoding
  else if caseInsensitiveCompare "Trailer" key then KTrailer
  else if caseInsensitiveCompare "Host" key then KHost
  else if caseInsensitiveCompare "User-Agent" key then KUserAgent
  else KOrdinary.

Section Store.

Context `{RT : GoRuntime}.

(** [h.collectCookies()]: the Cookie pairs of the list, if they have not
    been collected yet, are parsed into the cookies and leave the list. *)
Definition collectCookies (hd : RequestHeader) : RequestHeader :=
  if cookiesCollected hd then hd
  else
    let found := List.filter (fun kv => caseInsensitiveCompare (fst kv) "Cookie") (h hd) in
    let kept :=
      List.filter (fun kv => negb (caseInsensitiveCompare (fst kv) "Cookie")) (h hd) in
    withCookies (fold_left (fun cs kv => parseRequestCookies cs (snd kv)) found (cookies hd))
      (withArgs kept hd).

(** [h.ResetConnectionClose()]. *)
Definition ResetConnectionClose (hd : RequestHeader) : RequestHeader :=
  if connectionClose hd
  then withArgs (delAllArgs (h hd) "Connection") (withConnectionClose false hd)
  else hd.

(** [h.setSpecialHeader(key, value)]: [Some] of the new header when the
    name is a special one, [None] when it is not. *)
Definition setSpecialHeader (key value : string) (hd : RequestHeader)
  : option RequestHeader :=
  match classify key with
  | KContentType => Some (withContentType value hd)
  | KContentLength =>
      match parseContentLength value with
      | Some n => Some (withContentLength n value hd)
      | None => Some hd
      end
  | KConnection =>
      if String.eqb value "close" then Some (withConnectionClose true hd)
      else
        let hd := ResetConnectionClose hd in
        Some (withArgs (setArg (h hd) key value) hd)
  | KCookie =>
      let hd := collectCookies hd in
      Some (withCookies (parseRequestCookies (cookies hd) value) hd)
  | KTransferEncoding => Some hd
  | KTrailer => Some (withTrailer (parseTrailer value) hd)
  | KHost => Some (withHost value hd)
  | KUserAgent => Some (withUserAgent value hd)
  | KOrdinary => None
  end.

(** [h.Set(key, value)]: the name is normalised and the value cleared of
    new lines; a special name goes to its field, another one to the list
    of pairs, where it replaces the value stored under the name. *)
Definition RequestHeader_Set (key value : string) (hd : RequestHeader) : RequestHeader :=
  let k := normalizeHeaderKey key in
  let v := removeNewLines value in
  match setSpecialHeader k v hd with
  | Some hd' => hd'
  | None => withArgs (setArg (h hd) k v) hd
  end.

(** [h.Add(key, value)]: a special name goes to its field as with [Set];
    another one is appended to the list of pairs under its normalised
    name. *)
Definition RequestHeader_Add (key value : string) (hd : RequestHeader) : RequestHeader :=
  match setSpecialHeader key value hd with
  | Some hd' => hd'
  | None => withArgs (appendArg (h hd) (normalizeHeaderKey key) value) hd
  end.

(** [h.PeekAll(key)]: the values stored under the name, read from the
    field of a special name and from the list of pairs otherwise. *)
Definition present (v : string) : list string :=
  match v with
  | EmptyString => []
  | _ => [v]
  end.

Definition RequestHeader_PeekAll (key : string) (hd : RequestHeader) : list string :=
  let k := normalizeHeaderKey key in
  if String.eqb k "Host" then present (hostBytes hd)
  else if String.eqb k "Content-Type" then present (contentType hd)
  else if String.eqb k "User-Agent" then present (userAgent hd)
  else if String.eqb k "Connection" then
    if connectionClose hd then ["close"] else peekAllArg (h hd) k
  else if String.eqb k "Content-Length" then [contentLengthBytes hd]
  else if String.eqb k "Cookie" then
    if cookiesCollected hd then [appendRequestCookieBytes (cookies hd)]
    else peekAllArg (h hd) k
  else if String.eqb k "Trailer" then [String.concat ", " (map fst (trailer hd))]
  else peekAllArg (h hd) k.

(** [h.VisitAll(f)] on a request header, as the list of the pairs that
    [f] is called with. *)
Definition RequestHeader_VisitAll (hd : RequestHeader) : list (string * string) :=
  let hd := collectCookies hd in
  ((match hostBytes hd with EmptyString => [] | v => [("Host", v)] end)
   ++ (match contentLengthBytes hd with EmptyString => [] | v => [("Content-Length", v)] end)
   ++ (match contentType hd with EmptyString => [] | v => [("Content-Type", v)] end)
   ++ (match userAgent hd with EmptyString => [] | v => [("User-Agent", v)] end)
   ++ (match trailer hd with
       | [] => []
       | t => [("Trailer", String.concat ", " (map fst t))]
       end)
   ++ (match cookies hd with
       | [] => []
       | cs => [("Cookie", appendRequestCookieBytes cs)]
       end)
   ++ h hd
   ++ (if connectionClose hd then [("Connection", "close")] else []))%list.

(** [req.Header.Set(key, value)], [req.Header.Add(key, value)] and
    [req.Header.PeekAll(key)]. *)
Definition Header_Set (key value : string) (req : Request) : Request :=
  withHeader (RequestHeader_Set key value (Header req)) req.

Definition Header_Add (key value : string) (req : Request) : Request :=
  withHeader (RequestHeader_Add key value (Header req)) req.

Definition PeekAll (key : string) (req : Request) : list string :=
  RequestHeader_PeekAll key (Header req).

End Store.

(** [req.Header.SetContentLength] for a length that is not negative: the
    length is kept with its decimal form, and a Transfer-Encoding pair
    leaves the list. [req.Header.SetMethod], [req.SetRequestURI],
    [req.SetHost], which sets the host of the request URI, and
    [req.BodyWriter().Write]. *)
Definition SetContentLength (n : Z) (req : Request) : Request :=
  let hd := Header req in
  withHeader
    (withArgs (delAllArgs (h hd) "Transfer-Encoding")
       (withContentLength n (AppendUint n) hd)) req.

Definition SetMethod (m : string) (req : Request) : Request :=
  withHeader (withMethod m (Header req)) req.

Definition SetRequestURI (u : string) (req : Request) : Request :=
  withHeader (withRequestURI u (Header req)) req.

Definition SetHost (x : string) (req : Request) : Request :=
  {| Header := Header req; host := x; body := body req |}.

Definition BodyWrite (p : bytes) (req : Request) : Request :=
  {| Header := Header req; host := host req; body := (body req ++ p)%list |}.

(** [req.Reset()] clears every part of the request. *)
Definition Reset (req : Request) : Request :=
  {| Header :=
       {| method := EmptyString; requestURI := EmptyString;
          contentLength := 0; contentLengthBytes := EmptyString;
          connectionClose := false;
          hostBytes := EmptyString; contentType := EmptyString; userAgent := EmptyString;
          cookiesCollected := false; cookies := []; trailer := [];
          h := [] |};
     host := EmptyString; body := [] |}.

(** The request pool. fasthttp keeps the released requests in a
    [sync.Pool], which may hand back any of the requests put into it, or
    none of them; it is rendered here as a stack that keeps every released
    request. [AcquireRequest] takes a pooled request when there is one and
    allocates a zero one otherwise; [ReleaseRequest] resets the request
    and puts it back. A request is reset before it is pooled, so that the
    request acquired is a zero one whichever the pool hands back; nothing
    below is stated about how many requests the pool holds. *)
Definition Pool := list Request.

Definition AcquireRequest (p : Pool) : Request * Pool :=
  match p with
  | [] => (zeroRequest, [])
  | req :: rest => (req, rest)
  end.

Definition ReleaseRequest (req : Request) (p : Pool) : Pool :=
  Reset req :: p.

(** [ctx.Init(req, remoteAddr, nil)] copies the request into a context
    whose response is empty. *)
Definition Init (req : Request) (addr : net.TCPAddr) : RequestCtx :=
  {| Req := req; Resp := zeroResponse; remoteAddr := addr |}.

(** [resp.StatusCode()]: a status that was never set reads as 200. *)
Definition StatusCode (r : Response) : Z :=
  if statusCode r =? 0 then 200 else statusCode r.

(** [resp.Header.VisitAll(f)], for an [f] that updates a value of type [A],
    and [resp.Body()]. *)
Definition VisitAll {A} (f : string -> string -> A -> A) (r : Response) (a : A) : A :=
  fold_left (fun a kv => f (fst kv) (snd kv) a) (respHeader r) a.

Definition Body (r : Response) : bytes := respBody r.

End fasthttp.

(** ** fiber *)

Module fiber.

Definition HeaderHost := "Host".
Definition HeaderContentType := "Content-Type".
Definition HeaderUserAgent := "User-Agent".
Definition HeaderContentLength := "Content-Length".
Definition HeaderConnection := "Connection".

Definition StatusInternalServerError : Z := 500.

(** A [fiber.App], seen through [app.Handler()]: the handler takes the
    populated request context to the context it leaves behind. *)
Record App := { Handler : fasthttp.RequestCtx -> fasthttp.RequestCtx }.

End fiber.

(** ** aws-lambda-go/events *)

Module events.

Record ALBTargetGroupRequest := {
  HTTPMethod : string;
  Path : string;
  QueryStringParameters : gmap string string;
  MultiValueQueryStringParameters : gmap string (list string);
  Headers : gmap string string;
  MultiValueHeaders : gmap string (list string);
  IsBase64Encoded : bool;
  Body : string
}.

Record ALBTargetGroupResponse := {
  StatusCode : Z;
  StatusDescription : string;
  RespHeaders : gmap string string;
  RespMultiValueHeaders : gmap string (list string);
  RespBody : string;
  RespIsBase64Encoded : bool
}.

End events.

(** ** context *)

Module context.

(** A [context.Context], seen through [ctx.Err()] at the time the request
    is built: [None] while the context is live, the reason once it has been
    cancelled or its deadline has passed. *)
Record Context := { Err : option error }.

End context.

(** ** The world a call runs in *)

Inductive Event : Type :=
| EvAcquire
| EvRelease
| EvHandler (ctx : fasthttp.RequestCtx)
| EvLog (msg : string).

(** [pool] is fasthttp's request pool, [rangeSeed] counts the [range]
    statements over maps executed so far (the runtime picks the order of
    each one), [trace] is the history of observable steps. *)
Record World := {
  pool : fasthttp.Pool;
  rangeSeed : nat;
  trace : list Event
}.

Definition M (A : Type) : Type := World -> A * World.

#[global] Instance M_ret : MRet M := fun A a σ => (a, σ).
#[global] Instance M_bind : MBind M :=
  fun A B f m σ => let '(a, σ') := m σ in f a σ'.

Definition emit (e : Event) : M unit :=
  fun σ => (tt, {| pool := pool σ; rangeSeed := rangeSeed σ;
                   trace := (trace σ ++ [e])%list |}).

(** [fasthttp.AcquireRequest()] and [fasthttp.ReleaseRequest(req)] on the
    pool of the world. *)
Definition AcquireRequest : M fasthttp.Request :=
  fun σ =>
    let '(req, p) := fasthttp.AcquireRequest (pool σ) in
    (req, {| pool := p; rangeSeed := rangeSeed σ;
             trace := (trace σ ++ [EvAcquire])%list |}).

Definition ReleaseRequest (req : fasthttp.Request) : M unit :=
  fun σ =>
    (tt, {| pool := fasthttp.ReleaseRequest req (pool σ); rangeSeed := rangeSeed σ;
            trace := (trace σ ++ [EvRelease])%list |}).

(** Pooled requests only enter the pool through [ReleaseRequest], which
    resets them. *)
Definition pool_clean (σ : World) : Prop :=
  Forall (fun req => req = fasthttp.zeroRequest) (pool σ).

Definition handler_calls (t : list Event) : list fasthttp.RequestCtx :=
  omap (fun e => match e with EvHandler ctx => Some ctx | _ => None end) t.

Definition log_lines (t : list Event) : list string :=
  omap (fun e => match e with EvLog msg => Some msg | _ => None end) t.

Definition pool_steps (t : list Event) : list Event :=
  List.filter (fun e => match e with EvAcquire | EvRelease => true | _ => false end) t.

(** ** core

    The core package of the repository is not part of the sources at hand:
    the parts the adapter calls are modelled from the specification. *)

Module core.

(** Modelled from the spec: core.ProxyResponseWriterALB, the
    "response-capture object" into which the adapter writes the header set,
    the status code and the body of the engine response. [status] is [None]
    until a status code has been written. *)
Record ProxyResponseWriterALB := {
  headers : gmap string (list string);
  status : option Z;
  body : bytes
}.

(** Modelled from the spec: core.NewProxyResponseWriterALB, a capture
    object that holds nothing yet. *)
Definition NewProxyResponseWriterALB : ProxyResponseWriterALB :=
  {| headers := ∅; status := None; body := [] |}.

(** Modelled from the spec: core.GatewayTimeoutALB, the fixed "gateway
    timeout" Outbound Event, of status 504. *)
Definition GatewayTimeoutALB : events.ALBTargetGroupResponse :=
  {| events.StatusCode := 504;
     events.StatusDescription := EmptyString;
     events.RespHeaders := ∅;
     events.RespMultiValueHeaders := ∅;
     events.RespBody := EmptyString;
     events.RespIsBase64Encoded := false |}.

(** Modelled from the spec: core.NewLoggedError, which builds the
    "descriptive, logged error": the message is formatted, written to the
    log and returned as the error. *)
Definition NewLoggedError (format : string) (a : error) : M error :=
  let msg := Sprintf_v format a in
  emit (EvLog msg);; mret msg.

End core.

(** ** What the specification leaves open about the core package *)

(** [CorePackage] gathers what the specification leaves open about the
    core package: the conversion of an event, the check that
    [GetProxyResponse] makes on the captured data, and the way the captured
    body becomes the body string and the encoding flag of the event. *)
Class CorePackage := {
  ProxyEventToHTTPRequest : events.ALBTargetGroupRequest -> result http.Request;
  captureError : core.ProxyResponseWriterALB -> option error;
  encodeBody : bytes -> string * bool
}.

Section Adapter.

Context `{RT : GoRuntime} `{CP : CorePackage}.

(** [h.Add(key, value)] and [h.Set(key, value)] on an [http.Header]. *)
Definition http_Header_Add (key value : string) (hd : gmap string (list string))
  : gmap string (list string) :=
  let k := CanonicalMIMEHeaderKey key in
  <[k := (default [] (hd !! k) ++ [value])%list]> hd.

Definition http_Header_Set (key value : string) (hd : gmap string (list string))
  : gmap string (list string) :=
  <[CanonicalMIMEHeaderKey key := [value]]> hd.

(** Modelled from the spec: core.ProxyResponseWriterALB as an
    [http.ResponseWriter]; each write is kept as it is made. *)
#[global] Instance core_ResponseWriter : http.ResponseWriter core.ProxyResponseWriterALB := {
  Header_Add key value w :=
    {| core.headers := http_Header_Add key value (core.headers w);
       core.status := core.status w; core.body := core.body w |};
  Header_Set key value w :=
    {| core.headers := http_Header_Set key value (core.headers w);
       core.status := core.status w; core.body := core.body w |};
  WriteHeader code w :=
    {| core.headers := core.headers w; core.status := Some code;
       core.body := core.body w |};
  Write p w :=
    {| core.headers := core.headers w; core.status := core.status w;
       core.body := (core.body w ++ p)%list |}
}.

(** Modelled from the spec: core.GetProxyResponse, which "extracts a
    structured Outbound Event" from the capture object, with the "real
    status/headers/body", unless the captured data violates an invariant
    (the spec does not say which: [captureError]). *)
Definition GetProxyResponse (w : core.ProxyResponseWriterALB)
  : events.ALBTargetGroupResponse * option error :=
  match captureError w with
  | Some e =>
      ({| events.StatusCode := 0; events.StatusDescription := EmptyString;
          events.RespHeaders := ∅; events.RespMultiValueHeaders := ∅;
          events.RespBody := EmptyString; events.RespIsBase64Encoded := false |}, Some e)
  | None =>
      ({| events.StatusCode := default 0 (core.status w);
          events.StatusDescription := EmptyString;
          events.RespHeaders := ∅;
          events.RespMultiValueHeaders := core.headers w;
          events.RespBody := fst (encodeBody (core.body w));
          events.RespIsBase64Encoded := snd (encodeBody (core.body w)) |}, None)
  end.

(** Modelled from the spec: core.EventToRequestWithContext, which is
    [ProxyEventToHTTPRequest] except that "if the context is already
    cancelled or expires before conversion, request construction fails". *)
Definition EventToRequestWithContext (ctx : context.Context)
    (req : events.ALBTargetGroupRequest) : result http.Request :=
  match context.Err ctx with
  | Some e => Err e
  | None => ProxyEventToHTTPRequest req
  end.

(** ** The adapter *)

(** [FiberLambdaALB] embeds [core.RequestAccessorALB], whose methods
    [ProxyEventToHTTPRequest] and [EventToRequestWithContext] are those
    above, and holds the fiber application. *)
Record FiberLambdaALB := { app : fiber.App }.

Definition NewALB (a : fiber.App) : FiberLambdaALB := {| app := a |}.

(** The [range] statement over a header map. *)
Definition rangeHeader (m : gmap string (list string)) : M (list (string * list string)) :=
  fun σ => (rangeOrder (rangeSeed σ) m,
            {| pool := pool σ; rangeSeed := S (rangeSeed σ); trace := trace σ |}).

(** [f.app.Handler()(&fctx)]. *)
Definition callHandler (f : FiberLambdaALB) (fctx : fasthttp.RequestCtx) : M fasthttp.RequestCtx :=
  emit (EvHandler fctx);; mret (fiber.Handler (app f) fctx).

(** The [switch key] of the header loop. *)
Definition overridden (key : string) : bool :=
  String.eqb key fiber.HeaderHost
  || String.eqb key fiber.HeaderContentType
  || String.eqb key fiber.HeaderUserAgent
  || String.eqb key fiber.HeaderContentLength
  || String.eqb key fiber.HeaderConnection.

(** The inner loop, [for _, v := range val], and the outer one. *)
Definition copyValues (key : string) (val : list string) (req : fasthttp.Request)
  : fasthttp.Request :=
  fold_left (fun req v =>
               if overridden key then fasthttp.Header_Set key v req
               else fasthttp.Header_Add key v req) val req.

Definition copyHeader (entries : list (string * list string)) (req : fasthttp.Request)
  : fasthttp.Request :=
  fold_left (fun req kv => copyValues (fst kv) (snd kv) req) entries req.

Section Adaptor.

Context {W : Type} `{WR : http.ResponseWriter W}.

(** The statements of [adaptor] after the request has been acquired; the
    result is the writer and the request as the function leaves them. *)
Definition adaptor_steps (f : FiberLambdaALB) (w : W) (r : http.Request)
    (req : fasthttp.Request) : M (W * fasthttp.Request) :=
  let '(body, err) := ioutil.ReadAll (http.Body r) in
  match err with
  | Some _ =>
      mret (http.Error w (StatusMessage fiber.StatusInternalServerError)
              fiber.StatusInternalServerError, req)
  | None =>
      let req := fasthttp.SetContentLength (Z.of_nat (length body)) req in
      let req := fasthttp.BodyWrite body req in
      let req := fasthttp.SetMethod (http.Method r) req in
      let req := fasthttp.SetRequestURI (http.RequestURI r) req in
      let req := fasthttp.SetHost (http.Host r) req in
      entries ← rangeHeader (http.Header r);
      let req := copyHeader entries req in
      match ResolveTCPAddr "tcp" (http.RemoteAddr r) with
      | Err _ =>
          mret (http.Error w (StatusMessage fiber.StatusInternalServerError)
                  fiber.StatusInternalServerError, req)
      | Ok remoteAddr =>
          let fctx := fasthttp.Init req remoteAddr in
          fctx ← callHandler f fctx;
          let w := fasthttp.VisitAll (fun k v w => http.Header_Add k v w)
                     (fasthttp.Resp fctx) w in
          let w := http.WriteHeader (fasthttp.StatusCode (fasthttp.Resp fctx)) w in
          let w := http.Write (fasthttp.Body (fasthttp.Resp fctx)) w in
          mret (w, req)
      end
  end.

(** [adaptor]: the request is acquired, the statements run, and the
    deferred [ReleaseRequest] runs when they return. *)
Definition adaptor (f : FiberLambdaALB) (w : W) (r : http.Request) : M W :=
  req ← AcquireRequest;
  '(w, req) ← adaptor_steps f w r req;
  ReleaseRequest req;;
  mret w.

End Adaptor.

Definition proxyInternal (f : FiberLambdaALB) (conv : result http.Request)
  : M (events.ALBTargetGroupResponse * option error) :=
  match conv with
  | Err err =>
      e ← core.NewLoggedError "Could not convert proxy event to request: %v" err;
      mret (core.GatewayTimeoutALB, Some e)
  | Ok req =>
      let respWriter := core.NewProxyResponseWriterALB in
      respWriter ← adaptor f respWriter req;
      let '(proxyResponse, err) := GetProxyResponse respWriter in
      match err with
      | Some err =>
          e ← core.NewLoggedError "Error while generating proxy response: %v" err;
          mret (core.GatewayTimeoutALB, Some e)
      | None => mret (proxyResponse, None)
      end
  end.

Definition Proxy (f : FiberLambdaALB) (req : events.ALBTargetGroupRequest)
  : M (events.ALBTargetGroupResponse * option error) :=
  proxyInternal f (ProxyEventToHTTPRequest req).

Definition ProxyWithContext (f : FiberLambdaALB) (ctx : context.Context)
    (req : events.ALBTargetGroupRequest)
  : M (events.ALBTargetGroupResponse * option error) :=
  proxyInternal f (EventToRequestWithContext ctx req).

End Adapter.

(** ** Notions used to state the properties *)

Section Notions.

Context `{RT : GoRuntime} `{CP : CorePackage}.

(** The engine request that the statements of [adaptor] build from the
    generic request [r], starting from the acquired request [req0], when
    the header map is visited in the order [entries]. *)
Definition engineRequest (r : http.Request) (entries : list (string * list string))
    (req0 : fasthttp.Request) : fasthttp.Request :=
  let body := fst (ioutil.ReadAll (http.Body r)) in
  copyHeader entries
    (fasthttp.SetHost (http.Host r)
       (fasthttp.SetRequestURI (http.RequestURI r)
          (fasthttp.SetMethod (http.Method r)
             (fasthttp.BodyWrite body
                (fasthttp.SetContentLength (Z.of_nat (length body)) req0))))).

(** The engine request as a call of [adaptor] in the world [σ] leaves it. *)
Definition constructedRequest {W} `{WR : http.ResponseWriter W}
    (f : FiberLambdaALB) (w : W) (r : http.Request) (σ : World) : fasthttp.Request :=
  let '(req, σ1) := AcquireRequest σ in
  snd (fst (adaptor_steps f w r req σ1)).

(** What [adaptor] writes after the handler has returned. *)
Definition respond {W} `{WR : http.ResponseWriter W} (resp : fasthttp.Response) (w : W) : W :=
  http.Write (fasthttp.Body resp)
    (http.WriteHeader (fasthttp.StatusCode resp)
       (fasthttp.VisitAll (fun k v w => http.Header_Add k v w) resp w)).

(** The generic internal-server-error response of the low-level path. *)
Definition internalServerError {W} `{WR : http.ResponseWriter W} (w : W) : W :=
  http.Error w (StatusMessage fiber.StatusInternalServerError)
    fiber.StatusInternalServerError.

(** The world after one run of [adaptor] from [σ]: the request taken from
    the pool is back in it, reset; [ranged] tells whether the header loop
    ran, [mid] what happened between acquisition and release. *)
Definition afterAdaptor (σ : World) (ranged : bool) (mid : list Event) : World :=
  {| pool := fasthttp.zeroRequest :: snd (fasthttp.AcquireRequest (pool σ));
     rangeSeed := if ranged then S (rangeSeed σ) else rangeSeed σ;
     trace := (trace σ ++ EvAcquire :: mid ++ [EvRelease])%list |}.

(** The gateway-timeout fallback: the fixed event, a non-nil error, and
    the message of that error as the one new line of the log. *)
Definition gateway_timeout_fallback
    (out : events.ALBTargetGroupResponse * option error * World) (σ : World) : Prop :=
  exists msg : error,
    fst out = (core.GatewayTimeoutALB, Some msg)
    /\ log_lines (trace (snd out)) = (log_lines (trace σ) ++ [msg])%list.

(** The handler was not invoked between [σ] and [σ']. *)
Definition handler_not_invoked (σ σ' : World) : Prop :=
  handler_calls (trace σ') = handler_calls (trace σ).

(** The two ways into the low-level 500 path of [adaptor]. *)
Definition body_read_fails (r : http.Request) : Prop :=
  exists e, http.ending (http.Body r) = Some e.

Definition address_unresolvable (r : http.Request) : Prop :=
  http.ending (http.Body r) = None
  /\ exists e, ResolveTCPAddr "tcp" (http.RemoteAddr r) = Err e.

(** The names of the [case] list of the header loop. *)
Definition overrideSet : list string :=
  [fiber.HeaderHost; fiber.HeaderContentType; fiber.HeaderUserAgent;
   fiber.HeaderContentLength; fiber.HeaderConnection].

(** One turn of the inner loop of the header copy. *)
Definition copyValue `{RT : GoRuntime} (key v : string) (req : fasthttp.Request)
  : fasthttp.Request :=
  if overridden key then fasthttp.Header_Set key v req
  else fasthttp.Header_Add key v req.








End Notions.

(** ** Sample inputs *)

Module Sample.

Definition addr : net.TCPAddr :=
  {| net.IP := [x7f; x00; x00; x01]; net.Port := 8080; net.Zone := EmptyString |}.

(** Stand-ins for the parsers of fasthttp: a Content-Length value is a
    non-empty row of decimal digits; a Cookie value and a Trailer value
    are kept whole. *)
Fixpoint digitsValue (acc : Z) (s : string) : option Z :=
  match s with
  | EmptyString => Some acc
  | String c rest =>
      let n := Z.of_N (N_of_ascii c) in
      if (48 <=? n) && (n <=? 57) then digitsValue (10 * acc + (n - 48)) rest
      else None
  end.

Definition decimal (s : string) : option Z :=
  match s with
  | EmptyString => None
  | _ => digitsValue 0 s
  end.

Definition keepCookie (cs : list (string * string)) (v : string) : list (string * string) :=
  (cs ++ [(v, EmptyString)])%list.

Definition joinCookies (cs : list (string * string)) : string :=
  String.concat "; " (map fst cs).

Definition keepTrailer (v : string) : list (string * string) := [(v, EmptyString)].

(** A runtime that resolves one address and ranges over a map in the
    order of [map_to_list]. *)
Definition runtime : GoRuntime :=
  {| CanonicalMIMEHeaderKey k := k;
     StatusMessage _ := "Internal Server Error";
     ResolveTCPAddr _ a :=
       if String.eqb a "127.0.0.1:8080" then Ok addr
       else Err "address: missing port in address";
     rangeOrder _ m := map_to_list m;
     parseContentLength := decimal;
     parseRequestCookies := keepCookie;
     appendRequestCookieBytes := joinCookies;
     parseTrailer := keepTrailer |}.

(** A runtime that ranges over a map in one order on even turns and in
    the opposite order on odd turns. *)
Definition alternating : GoRuntime :=
  {| CanonicalMIMEHeaderKey k := k;
     StatusMessage _ := "Internal Server Error";
     ResolveTCPAddr _ a :=
       if String.eqb a "127.0.0.1:8080" then Ok addr
       else Err "address: missing port in address";
     rangeOrder n m := if Nat.even n then map_to_list m else reverse (map_to_list m);
     parseContentLength := decimal;
     parseRequestCookies := keepCookie;
     appendRequestCookieBytes := joinCookies;
     parseTrailer := keepTrailer |}.

(** A core package whose conversion yields [conv], whose capture step
    insists on a status code and leaves the body as text. *)
Definition package (conv : result http.Request) : CorePackage :=
  {| ProxyEventToHTTPRequest _ := conv;
     captureError w :=
       match core.status w with
       | None => Some "status code not set on response"
       | Some _ => None
       end;
     encodeBody b := (string_of b, false) |}.

(** A core package whose capture step rejects everything. *)
Definition rejecting (conv : result http.Request) : CorePackage :=
  {| ProxyEventToHTTPRequest _ := conv;
     captureError _ := Some "captured data rejected";
     encodeBody b := (string_of b, false) |}.

(** The handler that echoes the request body with status 200. *)
Definition echo : fiber.App :=
  {| fiber.Handler ctx :=
       {| fasthttp.Req := fasthttp.Req ctx;
          fasthttp.Resp :=
            {| fasthttp.statusCode := 200;
               fasthttp.respHeader := [];
               fasthttp.respBody := fasthttp.body (fasthttp.Req ctx) |};
          fasthttp.remoteAddr := fasthttp.remoteAddr ctx |} |}.

(** The handler that answers with the names of the request headers, in
    the order [VisitAll] gives them. *)
Definition headerNames : fiber.App :=
  {| fiber.Handler ctx :=
       {| fasthttp.Req := fasthttp.Req ctx;
          fasthttp.Resp :=
            {| fasthttp.statusCode := 200;
               fasthttp.respHeader := [];
               fasthttp.respBody :=
                 bytes_of (String.concat ","
                   (map fst (fasthttp.RequestHeader_VisitAll (RT := runtime)
                               (fasthttp.Header (fasthttp.Req ctx))))) |};
          fasthttp.remoteAddr := fasthttp.remoteAddr ctx |} |}.

Definition event : events.ALBTargetGroupRequest :=
  {| events.HTTPMethod := "POST";
     events.Path := "/greet";
     events.QueryStringParameters := ∅;
     events.MultiValueQueryStringParameters := ∅;
     events.Headers := ∅;
     events.MultiValueHeaders :=
       {[ "Host" := ["a.example"; "b.example"]; "X-Tag" := ["1"; "2"; "1"] ]};
     events.IsBase64Encoded := false;
     events.Body := "hello" |}.

Definition request : http.Request :=
  {| http.Method := "POST";
     http.RequestURI := "/greet";
     http.Host := "b.example";
     http.Header :=
       {[ "Host" := ["a.example"; "b.example"]; "X-Tag" := ["1"; "2"; "1"] ]};
     http.Body := {| http.delivered := bytes_of "hello"; http.ending := None |};
     http.RemoteAddr := "127.0.0.1:8080" |}.

(** The same request with a body that cannot be read to its end, and with
    a remote address that does not resolve. *)
Definition brokenBody : http.Request :=
  {| http.Method := "POST";
     http.RequestURI := "/greet";
     http.Host := "b.example";
     http.Header := http.Header request;
     http.Body := {| http.delivered := bytes_of "hel";
                     http.ending := Some "unexpected EOF" |};
     http.RemoteAddr := "127.0.0.1:8080" |}.

Definition noAddress : http.Request :=
  {| http.Method := "POST";
     http.RequestURI := "/greet";
     http.Host := "b.example";
     http.Header := http.Header request;
     http.Body := http.Body request;
     http.RemoteAddr := "nowhere" |}.

(** A request with a Host header and two headers of ordinary names. *)
Definition tagged : http.Request :=
  {| http.Method := "POST";
     http.RequestURI := "/greet";
     http.Host := "b.example";
     http.Header := {[ "Host" := ["b.example"]; "X-A" := ["1"]; "X-B" := ["2"] ]};
     http.Body := http.Body request;
     http.RemoteAddr := "127.0.0.1:8080" |}.



Definition cancelled : context.Context :=
  {| context.Err := Some "context canceled" |}.

Definition world : World := {| pool := []; rangeSeed := 0; trace := [] |}.

(** One call of [Proxy] with the handler [headerNames] on the sample
    event, under each of the two runtimes, and the engine request that
    [adaptor] builds for the sample request. *)
Definition steady : M (events.ALBTargetGroupResponse * option error) :=
  Proxy (RT := runtime) (CP := package (Ok request)) (NewALB headerNames) event.

Definition shuffled : M (events.ALBTargetGroupResponse * option error) :=
  Proxy (RT := alternating) (CP := package (Ok tagged)) (NewALB headerNames) event.




End Sample.

(** ** Further notions

    A response writer that records the calls made on it, oldest first. *)
Inductive WriterCall : Type :=
| CallHeaderAdd (key value : string)
| CallHeaderSet (key value : string)
| CallWriteHeader (code : Z)
| CallWrite (p : bytes).

#[global] Instance recording_ResponseWriter : http.ResponseWriter (list WriterCall) := {
  Header_Add key value w := (w ++ [CallHeaderAdd key value])%list;
  Header_Set key value w := (w ++ [CallHeaderSet key value])%list;
  WriteHeader code w := (w ++ [CallWriteHeader code])%list;
  Write p w := (w ++ [CallWrite p])%list
}.

Definition header_call (c : WriterCall) : Prop :=
  match c with
  | CallHeaderAdd _ _ | CallHeaderSet _ _ => True
  | _ => False
  end.

(** The two outcomes of a call: an answer with a nil error and nothing
    logged, or the gateway-timeout fallback. *)
Definition answered_or_fallback
    (out : events.ALBTargetGroupResponse * option error * World) (σ : World) : Prop :=
  (snd (fst out) = None /\ log_lines (trace (snd out)) = log_lines (trace σ))
  \/ gateway_timeout_fallback out σ.


(** One call of [Proxy] after the other, for a list of events. *)
Fixpoint proxyAll `{RT : GoRuntime} `{CP : CorePackage} (f : FiberLambdaALB)
    (evs : list events.ALBTargetGroupRequest)
  : M (list (events.ALBTargetGroupResponse * option error)) :=
  match evs with
  | [] => mret []
  | ev :: evs =>
      out ← Proxy f ev;
      outs ← proxyAll f evs;
      mret (out :: outs)
  end.

(** The engine request of a handler call was built from the request of
    one of the events, starting from an empty engine request. *)
Definition built_from `{RT : GoRuntime} `{CP : CorePackage}
    (evs : list events.ALBTargetGroupRequest) (fctx : fasthttp.RequestCtx) : Prop :=
  exists ev r n,
    ev ∈ evs
    /\ ProxyEventToHTTPRequest ev = Ok r
    /\ fasthttp.Req fctx
       = engineRequest r (rangeOrder n (http.Header r)) fasthttp.zeroRequest.

Module Sample2.

(** A core package that converts by the path of the event: one path is
    malformed, one has a body that cannot be read, the others yield the
    sample request with the path as its request URI. *)
Definition byPath : CorePackage :=
  {| ProxyEventToHTTPRequest ev :=
       if String.eqb (events.Path ev) "/malformed" then Err "illegal base64 data"
       else if String.eqb (events.Path ev) "/broken" then Ok Sample.brokenBody
       else Ok {| http.Method := events.HTTPMethod ev;
                  http.RequestURI := events.Path ev;
                  http.Host := "b.example";
                  http.Header := events.MultiValueHeaders ev;
                  http.Body := {| http.delivered := bytes_of (events.Body ev);
                                  http.ending := None |};
                  http.RemoteAddr := "127.0.0.1:8080" |};
     captureError w :=
       match core.status w with
       | None => Some "status code not set on response"
       | Some _ => None
       end;
     encodeBody b := (string_of b, false) |}.

Definition withPath (path : string) : events.ALBTargetGroupRequest :=
  {| events.HTTPMethod := "GET";
     events.Path := path;
     events.QueryStringParameters := ∅;
     events.MultiValueQueryStringParameters := ∅;
     events.Headers := ∅;
     events.MultiValueHeaders := {[ "X-Tag" := ["1"; "2"] ]};
     events.IsBase64Encoded := false;
     events.Body := path |}.

Definition batch : list events.ALBTargetGroupRequest :=
  [withPath "/first"; withPath "/malformed"; withPath "/broken"; withPath "/last"].

(** A handler that answers 201 with two cookies. *)
Definition created : fiber.App :=
  {| fiber.Handler ctx :=
       {| fasthttp.Req := fasthttp.Req ctx;
          fasthttp.Resp :=
            {| fasthttp.statusCode := 201;
               fasthttp.respHeader := [("Set-Cookie", "a=1"); ("Set-Cookie", "b=2")];
               fasthttp.respBody := bytes_of "created" |};
          fasthttp.remoteAddr := fasthttp.remoteAddr ctx |} |}.

(** A world whose pool holds two reset requests. *)
Definition warm : World :=
  {| pool := [fasthttp.zeroRequest; fasthttp.zeroRequest]; rangeSeed := 5;
     trace := [EvLog "earlier"] |}.

End Sample2.

(** * Properties *)

(** ** The request pool *)

Lemma Reset_zero (req : fasthttp.Request) : fasthttp.Reset req = fasthttp.zeroRequest.
Proof. reflexivity. Qed.

Lemma acquire_clean (σ : World) :
  pool_clean σ -> fst (fasthttp.AcquireRequest (pool σ)) = fasthttp.zeroRequest.
Proof.
  unfold pool_clean. destruct (pool σ) as [|req p]; simpl.
  - reflexivity.
  - intros Hc. apply Forall_cons in Hc. tauto.
Qed.

Lemma acquire_rest_clean (σ : World) :
  pool_clean σ ->
  Forall (fun req => req = fasthttp.zeroRequest) (snd (fasthttp.AcquireRequest (pool σ))).
Proof.
  unfold pool_clean. destruct (pool σ) as [|req p]; simpl.
  - constructor.
  - intros Hc. apply Forall_cons in Hc. tauto.
Qed.

(** ** The three ways through [adaptor] *)

Section Paths.

Context `{RT : GoRuntime} {W : Type} `{WR : http.ResponseWriter W}.
Variables (f : FiberLambdaALB) (w : W) (r : http.Request) (σ : World).

Lemma adaptor_read_error (e : error) :
  http.ending (http.Body r) = Some e ->
  adaptor f w r σ = (internalServerError w, afterAdaptor σ false []).
Proof.
  intros He. unfold adaptor, adaptor_steps, AcquireRequest, ioutil.ReadAll.
  unfold mbind, M_bind, mret, M_ret. rewrite He.
  destruct (fasthttp.AcquireRequest (pool σ)) as [q p] eqn:Hq.
  unfold afterAdaptor, internalServerError. simpl. rewrite Hq.
  rewrite <- List.app_assoc. reflexivity.
Qed.

Lemma adaptor_resolve_error (e : error) :
  http.ending (http.Body r) = None ->
  ResolveTCPAddr "tcp" (http.RemoteAddr r) = Err e ->
  adaptor f w r σ = (internalServerError w, afterAdaptor σ true []).
Proof.
  intros He Hr. unfold adaptor, adaptor_steps, AcquireRequest, ioutil.ReadAll, rangeHeader.
  unfold mbind, M_bind, mret, M_ret. rewrite He.
  destruct (fasthttp.AcquireRequest (pool σ)) as [q p] eqn:Hq.
  simpl. rewrite Hr.
  unfold afterAdaptor, internalServerError. simpl. rewrite Hq.
  rewrite <- List.app_assoc. reflexivity.
Qed.

Lemma adaptor_handled (a : net.TCPAddr) :
  http.ending (http.Body r) = None ->
  ResolveTCPAddr "tcp" (http.RemoteAddr r) = Ok a ->
  let fctx := fasthttp.Init
                (engineRequest r (rangeOrder (rangeSeed σ) (http.Header r))
                   (fst (fasthttp.AcquireRequest (pool σ)))) a in
  adaptor f w r σ =
    (respond (fasthttp.Resp (fiber.Handler (app f) fctx)) w,
     afterAdaptor σ true [EvHandler fctx]).
Proof.
  intros He Hr. unfold adaptor, adaptor_steps, AcquireRequest, ioutil.ReadAll, rangeHeader,
    callHandler, emit.
  unfold mbind, M_bind, mret, M_ret. rewrite He.
  destruct (fasthttp.AcquireRequest (pool σ)) as [q p] eqn:Hq.
  simpl. rewrite Hr.
  unfold afterAdaptor, respond, engineRequest, ioutil.ReadAll. simpl. rewrite Hq.
  rewrite <- !List.app_assoc. reflexivity.
Qed.

End Paths.

(** ** Header names *)

Section Names.





Lemma compare_refl (a : string) : fasthttp.caseInsensitiveCompare a a = true.
Proof.
  induction a as [|c a IH]; simpl; [reflexivity |].
  rewrite N.eqb_refl, IH. reflexivity.
Qed.


End Names.

(** ** The header store *)

Section Store.

Context `{RT : GoRuntime}.

Implicit Types (hd : fasthttp.RequestHeader) (req : fasthttp.Request)
  (key k v N : string) (val : list string) (kvs : list (string * string)).







(** A name of another kind is another name. *)
Lemma classify_neq key N :
  fasthttp.classify N <> fasthttp.classify key -> N <> key.
Proof. intros Hk ->. apply Hk. reflexivity. Qed.


(** What [setSpecialHeader] leaves alone. *)
Lemma setSpecialHeader_frame key v hd hd' :
  fasthttp.setSpecialHeader key v hd = Some hd' ->
  fasthttp.method hd' = fasthttp.method hd
  /\ fasthttp.requestURI hd' = fasthttp.requestURI hd
  /\ (fasthttp.classify key <> fasthttp.KHost -> fasthttp.hostBytes hd' = fasthttp.hostBytes hd)
  /\ (fasthttp.classify key <> fasthttp.KContentType ->
      fasthttp.contentType hd' = fasthttp.contentType hd)
  /\ (fasthttp.classify key <> fasthttp.KUserAgent ->
      fasthttp.userAgent hd' = fasthttp.userAgent hd)
  /\ (fasthttp.classify key <> fasthttp.KContentLength ->
      fasthttp.contentLengthBytes hd' = fasthttp.contentLengthBytes hd
      /\ fasthttp.contentLength hd' = fasthttp.contentLength hd)
  /\ (fasthttp.classify key <> fasthttp.KConnection ->
      fasthttp.connectionClose hd' = fasthttp.connectionClose hd).
Proof.
  unfold fasthttp.setSpecialHeader, fasthttp.collectCookies, fasthttp.ResetConnectionClose.
  destruct (fasthttp.classify key); intros Hset;
    repeat match type of Hset with
           | context [match ?c with _ => _ end] => destruct c
           end;
    try discriminate Hset; injection Hset as <-; simpl;
    repeat split; intros; try reflexivity; try congruence.
Qed.



End Store.

(** ** The header loop *)

Section HeaderLoop.

Context `{RT : GoRuntime}.

Implicit Types (hd : fasthttp.RequestHeader) (req : fasthttp.Request)
  (key k v N : string) (val : list string).

Lemma overridden_spec key : overridden key = true <-> key ∈ overrideSet.
Proof.
  unfold overridden, overrideSet.
  rewrite !orb_true_iff, !String.eqb_eq, !elem_of_cons, elem_of_nil. tauto.
Qed.

(** The names of the [case] list are special and are their own
    normalised names. *)
Lemma overridden_special key :
  overridden key = true ->
  fasthttp.normalizeHeaderKey key = key /\ fasthttp.classify key <> fasthttp.KOrdinary.
Proof.
  intros Hov. apply overridden_spec in Hov. unfold overrideSet in Hov.
  rewrite !elem_of_cons, elem_of_nil in Hov.
  destruct Hov as [-> | [-> | [-> | [-> | [-> | []]]]]]; split; (reflexivity || discriminate).
Qed.

Lemma setSpecialHeader_some key v hd :
  fasthttp.classify key <> fasthttp.KOrdinary ->
  exists hd', fasthttp.setSpecialHeader key v hd = Some hd'.
Proof.
  unfold fasthttp.setSpecialHeader. intros Hk.
  destruct (fasthttp.classify key); try (eexists; reflexivity); try congruence.
  - destruct (parseContentLength v); eexists; reflexivity.
  - destruct (String.eqb v "close"); eexists; reflexivity.
Qed.

Lemma setSpecialHeader_none key v hd :
  fasthttp.classify key = fasthttp.KOrdinary ->
  fasthttp.setSpecialHeader key v hd = None.
Proof. unfold fasthttp.setSpecialHeader. intros ->. reflexivity. Qed.

(** One turn of the inner loop, for a special name and for an ordinary
    one. *)
Lemma copyValue_special key v req :
  fasthttp.classify key <> fasthttp.KOrdinary ->
  exists hd',
    fasthttp.setSpecialHeader key
      (if overridden key then fasthttp.removeNewLines v else v) (fasthttp.Header req)
    = Some hd'
    /\ copyValue key v req = fasthttp.withHeader hd' req.
Proof.
  intros Hk. unfold copyValue. destruct (overridden key) eqn:Hov.
  - destruct (overridden_special key Hov) as [Hnorm _].
    destruct (setSpecialHeader_some key (fasthttp.removeNewLines v) (fasthttp.Header req) Hk)
      as [hd' Hset].
    exists hd'. split; [exact Hset |].
    unfold fasthttp.Header_Set, fasthttp.RequestHeader_Set. rewrite Hnorm, Hset. reflexivity.
  - destruct (setSpecialHeader_some key v (fasthttp.Header req) Hk) as [hd' Hset].
    exists hd'. split; [exact Hset |].
    unfold fasthttp.Header_Add, fasthttp.RequestHeader_Add. rewrite Hset. reflexivity.
Qed.

Lemma copyValue_ordinary key v req :
  fasthttp.classify key = fasthttp.KOrdinary ->
  copyValue key v req
  = fasthttp.withHeader
      (fasthttp.withArgs
         (fasthttp.appendArg (fasthttp.h (fasthttp.Header req))
            (fasthttp.normalizeHeaderKey key) v)
         (fasthttp.Header req)) req.
Proof.
  intros Hk. unfold copyValue.
  destruct (overridden key) eqn:Hov.
  - destruct (overridden_special key Hov) as [_ Hsp]. contradiction.
  - unfold fasthttp.Header_Add, fasthttp.RequestHeader_Add.
    rewrite (setSpecialHeader_none key v _ Hk). reflexivity.
Qed.

Lemma classify_cases key :
  fasthttp.classify key = fasthttp.KOrdinary \/ fasthttp.classify key <> fasthttp.KOrdinary.
Proof. destruct (fasthttp.classify key); (left; reflexivity) || (right; discriminate). Qed.

(** The loops as turns of [copyValue]. *)
Lemma copyValues_cons key v val req :
  copyValues key (v :: val) req = copyValues key val (copyValue key v req).
Proof. reflexivity. Qed.

Lemma copyHeader_cons key val (entries : list (string * list string)) req :
  copyHeader ((key, val) :: entries) req = copyHeader entries (copyValues key val req).
Proof. reflexivity. Qed.

(** The header loop touches the header only. *)
Lemma copyValue_frame key v req :
  fasthttp.method (fasthttp.Header (copyValue key v req)) = fasthttp.method (fasthttp.Header req)
  /\ fasthttp.requestURI (fasthttp.Header (copyValue key v req))
     = fasthttp.requestURI (fasthttp.Header req)
  /\ fasthttp.body (copyValue key v req) = fasthttp.body req.
Proof.
  destruct (classify_cases key) as [Hk | Hk].
  - rewrite (copyValue_ordinary key v req Hk). repeat split.
  - destruct (copyValue_special key v req Hk) as (hd' & Hset & ->).
    destruct (setSpecialHeader_frame _ _ _ _ Hset) as (Hm & Hu & _).
    simpl. auto.
Qed.

Lemma copyValues_frame key val req :
  fasthttp.method (fasthttp.Header (copyValues key val req)) = fasthttp.method (fasthttp.Header req)
  /\ fasthttp.requestURI (fasthttp.Header (copyValues key val req))
     = fasthttp.requestURI (fasthttp.Header req)
  /\ fasthttp.body (copyValues key val req) = fasthttp.body req.
Proof.
  revert req. induction val as [|v val IH]; intros req.
  - auto.
  - rewrite copyValues_cons. destruct (IH (copyValue key v req)) as (-> & -> & ->).
    apply copyValue_frame.
Qed.

Lemma copyHeader_frame (entries : list (string * list string)) req :
  fasthttp.method (fasthttp.Header (copyHeader entries req)) = fasthttp.method (fasthttp.Header req)
  /\ fasthttp.requestURI (fasthttp.Header (copyHeader entries req))
     = fasthttp.requestURI (fasthttp.Header req)
  /\ fasthttp.body (copyHeader entries req) = fasthttp.body req.
Proof.
  revert req. induction entries as [|[k val] entries IH]; intros req.
  - auto.
  - rewrite copyHeader_cons. destruct (IH (copyValues k val req)) as (-> & -> & ->).
    apply copyValues_frame.
Qed.




End HeaderLoop.

(** ** What one header leaves in the engine request *)

Section Kinds.

Context `{RT : GoRuntime}.

Implicit Types (hd : fasthttp.RequestHeader) (req : fasthttp.Request)
  (key k v N : string) (val : list string).

(** *** Host, Content-Type, User-Agent *)






(** *** Content-Length *)




(** *** Connection *)








(** *** The ordinary names *)




(** The [switch] compares the names as they are spelled. *)
Example overridden_is_case_sensitive :
  overridden "Host" = true /\ overridden "host" = false
  /\ overridden "Content-Length" = true /\ overridden "X-Tag" = false.
Proof. repeat split. Qed.

Example copyValues_Host :
  fasthttp.PeekAll "Host"
    (copyValues "Host" ["a.example"; "b.example"] fasthttp.zeroRequest) = ["b.example"].
Proof. reflexivity. Qed.

Example copyValues_other_name :
  fasthttp.PeekAll "X-Tag"
    (copyValues "X-Tag" ["1"; "2"; "1"] fasthttp.zeroRequest) = ["1"; "2"; "1"].
Proof. reflexivity. Qed.

Example Sprintf_v_error :
  Sprintf_v "Could not convert proxy event to request: %v" "illegal base64 data"
  = "Could not convert proxy event to request: illegal base64 data".
Proof. reflexivity. Qed.

End Kinds.


(** ** Traces *)

Lemma log_lines_app (t1 t2 : list Event) :
  log_lines (t1 ++ t2) = (log_lines t1 ++ log_lines t2)%list.
Proof. apply omap_app. Qed.

Lemma handler_calls_app (t1 t2 : list Event) :
  handler_calls (t1 ++ t2) = (handler_calls t1 ++ handler_calls t2)%list.
Proof. apply omap_app. Qed.

Lemma pool_steps_app (t1 t2 : list Event) :
  pool_steps (t1 ++ t2) = (pool_steps t1 ++ pool_steps t2)%list.
Proof. apply List.filter_app. Qed.

Section Steps.

Context `{RT : GoRuntime} `{CP : CorePackage}.

(** Every run of [adaptor] is one of the three above. *)
Lemma adaptor_cases {W} `{WR : http.ResponseWriter W}
    (f : FiberLambdaALB) (w : W) (r : http.Request) (σ : World) :
  exists (w' : W) (ranged : bool) (mid : list Event),
    adaptor f w r σ = (w', afterAdaptor σ ranged mid)
    /\ (mid = [] \/ exists fctx, mid = [EvHandler fctx]).
Proof.
  destruct (http.ending (http.Body r)) as [e|] eqn:He.
  - exists (internalServerError w), false, [].
    split; [apply (adaptor_read_error f w r σ e He) | left; reflexivity].
  - destruct (ResolveTCPAddr "tcp" (http.RemoteAddr r)) as [a|e] eqn:Hr.
    + eexists _, true, _. split; [apply (adaptor_handled f w r σ a He Hr) |].
      right. eexists. reflexivity.
    + exists (internalServerError w), true, [].
      split; [apply (adaptor_resolve_error f w r σ e He Hr) | left; reflexivity].
Qed.

Lemma adaptor_logs_nothing {W} `{WR : http.ResponseWriter W}
    (f : FiberLambdaALB) (w : W) (r : http.Request) (σ : World) :
  log_lines (trace (snd (adaptor f w r σ))) = log_lines (trace σ).
Proof.
  destruct (adaptor_cases f w r σ) as (w' & ranged & mid & -> & Hmid).
  simpl. rewrite log_lines_app.
  destruct Hmid as [-> | [fctx ->]]; simpl; apply List.app_nil_r.
Qed.

Lemma proxyInternal_unconverted (f : FiberLambdaALB) (e : error) (σ : World) :
  let msg := Sprintf_v "Could not convert proxy event to request: %v" e in
  proxyInternal f (Err e) σ =
    (core.GatewayTimeoutALB, Some msg,
     {| pool := pool σ; rangeSeed := rangeSeed σ;
        trace := (trace σ ++ [EvLog msg])%list |}).
Proof. reflexivity. Qed.

Lemma proxyInternal_captured (f : FiberLambdaALB) (r : http.Request) (σ : World) :
  snd (GetProxyResponse (fst (adaptor f core.NewProxyResponseWriterALB r σ))) = None ->
  proxyInternal f (Ok r) σ =
    (fst (GetProxyResponse (fst (adaptor f core.NewProxyResponseWriterALB r σ))), None,
     snd (adaptor f core.NewProxyResponseWriterALB r σ)).
Proof.
  unfold proxyInternal, mbind, M_bind.
  destruct (adaptor f core.NewProxyResponseWriterALB r σ) as [w' σ']. simpl.
  destruct (GetProxyResponse w') as [resp err]. simpl. intros ->. reflexivity.
Qed.

Lemma proxyInternal_uncaptured (f : FiberLambdaALB) (r : http.Request) (σ : World) (e : error) :
  snd (GetProxyResponse (fst (adaptor f core.NewProxyResponseWriterALB r σ))) = Some e ->
  let msg := Sprintf_v "Error while generating proxy response: %v" e in
  let σ' := snd (adaptor f core.NewProxyResponseWriterALB r σ) in
  proxyInternal f (Ok r) σ =
    (core.GatewayTimeoutALB, Some msg,
     {| pool := pool σ'; rangeSeed := rangeSeed σ';
        trace := (trace σ' ++ [EvLog msg])%list |}).
Proof.
  unfold proxyInternal, mbind, M_bind.
  destruct (adaptor f core.NewProxyResponseWriterALB r σ) as [w' σ']. simpl.
  destruct (GetProxyResponse w') as [resp err]. simpl. intros ->. reflexivity.
Qed.

Lemma fallback_unconverted (f : FiberLambdaALB) (e : error) (σ : World) :
  gateway_timeout_fallback (proxyInternal f (Err e) σ) σ
  /\ handler_not_invoked σ (snd (proxyInternal f (Err e) σ)).
Proof.
  rewrite proxyInternal_unconverted. split.
  - eexists. split; [reflexivity |]. simpl. apply log_lines_app.
  - unfold handler_not_invoked. simpl. rewrite handler_calls_app. apply List.app_nil_r.
Qed.

Lemma fallback_uncaptured (f : FiberLambdaALB) (r : http.Request) (σ : World) (e : error) :
  snd (GetProxyResponse (fst (adaptor f core.NewProxyResponseWriterALB r σ))) = Some e ->
  gateway_timeout_fallback (proxyInternal f (Ok r) σ) σ.
Proof.
  intros He. rewrite (proxyInternal_uncaptured f r σ e He).
  eexists. split; [reflexivity |]. simpl.
  rewrite log_lines_app, adaptor_logs_nothing. reflexivity.
Qed.

(** The event of an accepted capture carries the captured status and body. *)
Lemma GetProxyResponse_accepted (w : core.ProxyResponseWriterALB) :
  snd (GetProxyResponse w) = None ->
  events.StatusCode (fst (GetProxyResponse w)) = default 0 (core.status w)
  /\ events.RespBody (fst (GetProxyResponse w)) = fst (encodeBody (core.body w)).
Proof.
  unfold GetProxyResponse. destruct (captureError w); simpl.
  - discriminate.
  - intros _. split; reflexivity.
Qed.

End Steps.

(** ** Failures that end in the gateway-timeout fallback *)

Section Fallback.

Context `{RT : GoRuntime} `{CP : CorePackage}.

(** C1. Whenever the conversion of the event to a request fails, [Proxy]
    and [ProxyWithContext] return the fixed gateway-timeout event together
    with a non-nil error that has been logged, and the handler is not
    invoked; whenever the conversion succeeds but [GetProxyResponse] cannot
    produce an event from the captured response, they return the same fixed
    event with a non-nil, logged error. *)
Theorem failure_answers_gateway_timeout
    (f : FiberLambdaALB) (ctx : context.Context)
    (ev : events.ALBTargetGroupRequest) (σ : World) :
  (forall e, ProxyEventToHTTPRequest ev = Err e ->
     gateway_timeout_fallback (Proxy f ev σ) σ
     /\ handler_not_invoked σ (snd (Proxy f ev σ)))
  /\ (forall e, EventToRequestWithContext ctx ev = Err e ->
     gateway_timeout_fallback (ProxyWithContext f ctx ev σ) σ
     /\ handler_not_invoked σ (snd (ProxyWithContext f ctx ev σ)))
  /\ (forall r e, ProxyEventToHTTPRequest ev = Ok r ->
     snd (GetProxyResponse (fst (adaptor f core.NewProxyResponseWriterALB r σ))) = Some e ->
     gateway_timeout_fallback (Proxy f ev σ) σ)
  /\ (forall r e, EventToRequestWithContext ctx ev = Ok r ->
     snd (GetProxyResponse (fst (adaptor f core.NewProxyResponseWriterALB r σ))) = Some e ->
     gateway_timeout_fallback (ProxyWithContext f ctx ev σ) σ).
Proof.
  unfold Proxy, ProxyWithContext.
  split; [| split; [| split]].
  - intros e ->. apply fallback_unconverted.
  - intros e ->. apply fallback_unconverted.
  - intros r e -> He. eapply fallback_uncaptured, He.
  - intros r e -> He. eapply fallback_uncaptured, He.
Qed.

(** C8. When the context of [ProxyWithContext] is already cancelled or
    expired at the time the request is built, the construction fails, and
    the call returns the fixed gateway-timeout event with a non-nil logged
    error without invoking the handler: it is the conversion-failure path
    of [proxyInternal], the one [Proxy] takes when its conversion fails
    with the same error. *)
Theorem cancelled_context_answers_gateway_timeout
    (f : FiberLambdaALB) (ctx : context.Context)
    (ev : events.ALBTargetGroupRequest) (σ : World) (e : error) :
  context.Err ctx = Some e ->
  EventToRequestWithContext ctx ev = Err e
  /\ gateway_timeout_fallback (ProxyWithContext f ctx ev σ) σ
  /\ handler_not_invoked σ (snd (ProxyWithContext f ctx ev σ))
  /\ ProxyWithContext f ctx ev σ = proxyInternal f (Err e) σ
  /\ (ProxyEventToHTTPRequest ev = Err e ->
      ProxyWithContext f ctx ev σ = Proxy f ev σ).
Proof.
  intros Hctx.
  assert (Hconv : EventToRequestWithContext ctx ev = Err e).
  { unfold EventToRequestWithContext. rewrite Hctx. reflexivity. }
  unfold ProxyWithContext, Proxy. rewrite Hconv.
  split; [reflexivity |].
  split; [apply fallback_unconverted |].
  split; [apply fallback_unconverted |].
  split; [reflexivity |].
  intros ->. reflexivity.
Qed.

End Fallback.

(** ** The pooled request *)

Section Pool.

Context `{RT : GoRuntime} {W : Type} `{WR : http.ResponseWriter W}.

(** C7. In every run of [adaptor], whichever way it returns, the request
    is acquired first and released last, nothing in between touches the
    pool, so the run adds exactly one acquisition and one release; the
    request that was taken is back in the pool when the run ends. *)
Theorem request_released_on_every_path
    (f : FiberLambdaALB) (w : W) (r : http.Request) (σ : World) :
  let σ' := snd (adaptor f w r σ) in
  (exists mid : list Event,
      trace σ' = (trace σ ++ EvAcquire :: mid ++ [EvRelease])%list
      /\ pool_steps mid = [])
  /\ pool_steps (trace σ') = (pool_steps (trace σ) ++ [EvAcquire; EvRelease])%list
  /\ pool σ' = fasthttp.ReleaseRequest (constructedRequest f w r σ)
                 (snd (fasthttp.AcquireRequest (pool σ))).
Proof.
  destruct (adaptor_cases f w r σ) as (w' & ranged & mid & Hrun & Hmid).
  rewrite Hrun. simpl.
  assert (Hquiet : pool_steps mid = []).
  { destruct Hmid as [-> | [fctx ->]]; reflexivity. }
  split; [exists mid; split; [reflexivity | exact Hquiet] |].
  split; [| reflexivity].
  rewrite pool_steps_app. f_equal. simpl. rewrite pool_steps_app, Hquiet. reflexivity.
Qed.

End Pool.

(** ** The low-level error path *)

Section LowLevel.

Context `{RT : GoRuntime} `{CP : CorePackage}.

Lemma proxyInternal_handler_calls (f : FiberLambdaALB) (r : http.Request) (σ : World) :
  handler_calls (trace (snd (proxyInternal f (Ok r) σ))) =
  handler_calls (trace (snd (adaptor f core.NewProxyResponseWriterALB r σ))).
Proof.
  destruct (snd (GetProxyResponse (fst (adaptor f core.NewProxyResponseWriterALB r σ))))
    as [e|] eqn:Hc.
  - rewrite (proxyInternal_uncaptured f r σ e Hc). simpl.
    rewrite handler_calls_app. apply List.app_nil_r.
  - rewrite (proxyInternal_captured f r σ Hc). reflexivity.
Qed.

Lemma afterAdaptor_quiet (σ : World) (ranged : bool) :
  handler_not_invoked σ (afterAdaptor σ ranged []).
Proof.
  unfold handler_not_invoked. simpl. rewrite handler_calls_app. apply List.app_nil_r.
Qed.

(** Both ways into the low-level path leave the same response behind and
    do not reach the handler. *)
Lemma low_level_path {W} `{WR : http.ResponseWriter W}
    (f : FiberLambdaALB) (w : W) (r : http.Request) (σ : World) :
  body_read_fails r \/ address_unresolvable r ->
  fst (adaptor f w r σ) = internalServerError w
  /\ handler_not_invoked σ (snd (adaptor f w r σ)).
Proof.
  intros [[e He] | [He [e Hr]]].
  - rewrite (adaptor_read_error f w r σ e He). split; [reflexivity | apply afterAdaptor_quiet].
  - rewrite (adaptor_resolve_error f w r σ e He Hr).
    split; [reflexivity | apply afterAdaptor_quiet].
Qed.

(** What [proxyInternal] returns once the low-level path has been taken
    and the capture step accepts the response written there. *)
Lemma low_level_path_result (f : FiberLambdaALB) (r : http.Request) (σ : World) :
  body_read_fails r \/ address_unresolvable r ->
  snd (GetProxyResponse (internalServerError core.NewProxyResponseWriterALB)) = None ->
  exists resp,
    fst (proxyInternal f (Ok r) σ) = (resp, None)
    /\ events.StatusCode resp = 500
    /\ log_lines (trace (snd (proxyInternal f (Ok r) σ))) = log_lines (trace σ).
Proof.
  intros Hpath Hcap.
  destruct (low_level_path f core.NewProxyResponseWriterALB r σ Hpath) as [Hw _].
  assert (Hc : snd (GetProxyResponse
                      (fst (adaptor f core.NewProxyResponseWriterALB r σ))) = None).
  { rewrite Hw. exact Hcap. }
  rewrite (proxyInternal_captured f r σ Hc). rewrite Hw. cbn [fst snd].
  eexists. split; [reflexivity |]. split.
  - apply GetProxyResponse_accepted in Hcap. destruct Hcap as [-> _]. reflexivity.
  - apply adaptor_logs_nothing.
Qed.

(** C10. When the body of the generic request cannot be read, [adaptor]
    writes the internal-server-error response (status 500) through the
    response writer and returns without invoking the handler; this is the
    response it writes when the remote address does not resolve, and
    [proxyInternal] does not turn it into the gateway-timeout fallback:
    when the capture step accepts it, the event has status 500 and the
    error is nil. *)
Theorem body_read_failure_writes_500 {W} `{WR : http.ResponseWriter W}
    (f : FiberLambdaALB) (w : W) (r : http.Request) (σ : World) :
  body_read_fails r ->
  fst (adaptor f w r σ)
    = http.Error w (StatusMessage fiber.StatusInternalServerError) 500
  /\ handler_not_invoked σ (snd (adaptor f w r σ))
  /\ (forall r' σ', address_unresolvable r' ->
        fst (adaptor f w r' σ') = fst (adaptor f w r σ))
  /\ core.status (fst (adaptor f core.NewProxyResponseWriterALB r σ)) = Some 500
  /\ (snd (GetProxyResponse (internalServerError core.NewProxyResponseWriterALB)) = None ->
      exists resp, fst (proxyInternal f (Ok r) σ) = (resp, None)
                   /\ events.StatusCode resp = 500
                   /\ ~ gateway_timeout_fallback (proxyInternal f (Ok r) σ) σ).
Proof.
  intros Hbody.
  destruct (low_level_path f w r σ (or_introl Hbody)) as [Hw Hquiet].
  split; [exact Hw |]. split; [exact Hquiet |]. split; [| split].
  - intros r' σ' Haddr.
    destruct (low_level_path f w r' σ' (or_intror Haddr)) as [Hw' _].
    rewrite Hw, Hw'. reflexivity.
  - destruct (low_level_path f core.NewProxyResponseWriterALB r σ (or_introl Hbody))
      as [-> _].
    reflexivity.
  - intros Hcap.
    destruct (low_level_path_result f r σ (or_introl Hbody) Hcap) as (resp & Hres & Hst & _).
    exists resp. split; [exact Hres |]. split; [exact Hst |].
    intros (msg & Hfb & _). rewrite Hres in Hfb. discriminate.
Qed.

(** C3. When the remote address of the request does not resolve, the
    adapter does not answer with the gateway-timeout event: [adaptor]
    writes the internal-server-error response (status 500) through the
    response writer, the handler is never invoked, and the event that
    [Proxy] returns once the capture step accepts that response has status
    500, not 504. *)
Theorem unresolvable_address_writes_500
    (f : FiberLambdaALB) (ev : events.ALBTargetGroupRequest)
    (r : http.Request) (σ : World) :
  ProxyEventToHTTPRequest ev = Ok r ->
  address_unresolvable r ->
  let w' := fst (adaptor f core.NewProxyResponseWriterALB r σ) in
  w' = http.Error core.NewProxyResponseWriterALB
         (StatusMessage fiber.StatusInternalServerError) 500
  /\ core.status w' = Some 500
  /\ handler_not_invoked σ (snd (Proxy f ev σ))
  /\ (snd (GetProxyResponse w') = None ->
      fst (Proxy f ev σ) = (fst (GetProxyResponse w'), None)
      /\ events.StatusCode (fst (fst (Proxy f ev σ))) = 500
      /\ events.StatusCode (fst (fst (Proxy f ev σ)))
         <> events.StatusCode core.GatewayTimeoutALB).
Proof.
  intros Hconv Haddr w'. subst w'. unfold Proxy. rewrite Hconv.
  destruct (low_level_path f core.NewProxyResponseWriterALB r σ (or_intror Haddr))
    as [Hw Hquiet].
  split; [exact Hw |]. split; [rewrite Hw; reflexivity |]. split.
  - unfold handler_not_invoked. rewrite proxyInternal_handler_calls. exact Hquiet.
  - intros Hcap. rewrite (proxyInternal_captured f r σ Hcap). cbn [fst snd].
    split; [reflexivity |].
    assert (Hst : events.StatusCode
                    (fst (GetProxyResponse
                            (fst (adaptor f core.NewProxyResponseWriterALB r σ)))) = 500).
    { apply GetProxyResponse_accepted in Hcap. destruct Hcap as [-> _].
      rewrite Hw. reflexivity. }
    rewrite Hst. split; [reflexivity | discriminate].
Qed.

(** C9. When [adaptor] takes the low-level 500 path, because the body
    cannot be read or the remote address does not resolve, [Proxy] returns
    a structured event carrying the status 500 that was written to the
    response writer, with a nil error and nothing logged, provided the
    capture step accepts that response: the failure does not show in the
    error return. *)
Theorem low_level_failure_returns_nil_error
    (f : FiberLambdaALB) (ev : events.ALBTargetGroupRequest)
    (r : http.Request) (σ : World) :
  ProxyEventToHTTPRequest ev = Ok r ->
  body_read_fails r \/ address_unresolvable r ->
  snd (GetProxyResponse (internalServerError core.NewProxyResponseWriterALB)) = None ->
  exists resp,
    fst (Proxy f ev σ) = (resp, None)
    /\ events.StatusCode resp = 500
    /\ core.status (fst (adaptor f core.NewProxyResponseWriterALB r σ)) = Some 500
    /\ log_lines (trace (snd (Proxy f ev σ))) = log_lines (trace σ).
Proof.
  intros Hconv Hpath Hcap. unfold Proxy. rewrite Hconv.
  destruct (low_level_path_result f r σ Hpath Hcap) as (resp & Hres & Hst & Hlog).
  exists resp. split; [exact Hres |]. split; [exact Hst |]. split; [| exact Hlog].
  destruct (low_level_path f core.NewProxyResponseWriterALB r σ Hpath) as [-> _].
  reflexivity.
Qed.

End LowLevel.

(** ** The engine request *)

Section EngineRequest.

Context `{RT : GoRuntime}.

Lemma engineRequest_fields (r : http.Request) (entries : list (string * list string))
    (req0 : fasthttp.Request) :
  fasthttp.method (fasthttp.Header (engineRequest r entries req0)) = http.Method r
  /\ fasthttp.requestURI (fasthttp.Header (engineRequest r entries req0)) = http.RequestURI r
  /\ fasthttp.body (engineRequest r entries req0)
     = (fasthttp.body req0 ++ http.delivered (http.Body r))%list.
Proof.
  unfold engineRequest.
  match goal with
  | |- context [copyHeader entries ?q] => destruct (copyHeader_frame entries q) as (-> & -> & ->)
  end.
  repeat split.
Qed.







(** What the capture object of the core package holds after [respond]. *)
Lemma respond_captured (resp : fasthttp.Response) (w : core.ProxyResponseWriterALB) :
  core.status (respond resp w) = Some (fasthttp.StatusCode resp)
  /\ core.body (respond resp w) = (core.body w ++ fasthttp.Body resp)%list.
Proof.
  unfold respond, fasthttp.VisitAll. simpl. split; [reflexivity |]. f_equal.
  generalize dependent w. induction (fasthttp.respHeader resp) as [|kv kvs IH]; intros w.
  - reflexivity.
  - simpl. rewrite IH. reflexivity.
Qed.

End EngineRequest.

(** ** The request the handler receives *)

Section Pipeline.

Context `{RT : GoRuntime} `{CP : CorePackage}.


(** C4. For an event that converts to a generic request whose body can be
    read and whose remote address resolves, the handler is invoked once,
    with an engine request that carries the method and the request URI of
    the generic request and a body equal, byte for byte, to the body read
    from it. The body need not be non-empty for this. *)
Theorem pipeline_preserves_method_uri_body
    (f : FiberLambdaALB) (ev : events.ALBTargetGroupRequest)
    (r : http.Request) (σ : World) (body : bytes) (a : net.TCPAddr) :
  ProxyEventToHTTPRequest ev = Ok r ->
  pool_clean σ ->
  ioutil.ReadAll (http.Body r) = (body, None) ->
  ResolveTCPAddr "tcp" (http.RemoteAddr r) = Ok a ->
  exists fctx : fasthttp.RequestCtx,
    handler_calls (trace (snd (Proxy f ev σ))) = (handler_calls (trace σ) ++ [fctx])%list
    /\ fasthttp.method (fasthttp.Header (fasthttp.Req fctx)) = http.Method r
    /\ fasthttp.requestURI (fasthttp.Header (fasthttp.Req fctx)) = http.RequestURI r
    /\ fasthttp.body (fasthttp.Req fctx) = body.
Proof.
  intros Hconv Hclean Hread Hr. unfold ioutil.ReadAll in Hread.
  injection Hread as Hbody He.
  unfold Proxy. rewrite Hconv, proxyInternal_handler_calls.
  rewrite (adaptor_handled f core.NewProxyResponseWriterALB r σ a He Hr).
  eexists. split.
  - simpl. rewrite handler_calls_app. reflexivity.
  - simpl. rewrite (acquire_clean σ Hclean).
    destruct (engineRequest_fields r (rangeOrder (rangeSeed σ) (http.Header r))
                fasthttp.zeroRequest) as (-> & -> & ->).
    rewrite Hbody. repeat split.
Qed.

(** C5. With a handler that echoes the request body as the response body
    with status 200, [Proxy] on an event with body "hello" that converts
    to a request carrying that body and a resolvable remote address
    returns an event with status code 200 and body "hello" and a nil
    error, the capture step accepting the response and passing the text
    on as it is. *)
Theorem echo_handler_returns_hello
    (f : FiberLambdaALB) (ev : events.ALBTargetGroupRequest)
    (r : http.Request) (σ : World) (a : net.TCPAddr) :
  (forall ctx,
      fasthttp.StatusCode (fasthttp.Resp (fiber.Handler (app f) ctx)) = 200
      /\ fasthttp.Body (fasthttp.Resp (fiber.Handler (app f) ctx))
         = fasthttp.body (fasthttp.Req ctx)) ->
  events.Body ev = "hello" ->
  ProxyEventToHTTPRequest ev = Ok r ->
  ioutil.ReadAll (http.Body r) = (bytes_of (events.Body ev), None) ->
  ResolveTCPAddr "tcp" (http.RemoteAddr r) = Ok a ->
  pool_clean σ ->
  snd (GetProxyResponse (fst (adaptor f core.NewProxyResponseWriterALB r σ))) = None ->
  encodeBody (bytes_of "hello") = ("hello", false) ->
  exists resp,
    fst (Proxy f ev σ) = (resp, None)
    /\ events.StatusCode resp = 200
    /\ events.RespBody resp = "hello".
Proof.
  intros Hecho Hev Hconv Hread Hr Hclean Hcap Henc.
  unfold ioutil.ReadAll in Hread. injection Hread as Hbody He.
  unfold Proxy. rewrite Hconv, (proxyInternal_captured f r σ Hcap). cbn [fst].
  eexists. split; [reflexivity |].
  destruct (GetProxyResponse_accepted _ Hcap) as [-> ->].
  rewrite (adaptor_handled f core.NewProxyResponseWriterALB r σ a He Hr). cbn [fst].
  match goal with
  | |- context [respond ?resp ?w] => destruct (respond_captured resp w) as [-> ->]
  end.
  match goal with
  | |- context [fiber.Handler (app f) ?c] => destruct (Hecho c) as [-> ->]
  end.
  split; [reflexivity |].
  cbn [fasthttp.Init fasthttp.Req]. rewrite (acquire_clean σ Hclean).
  destruct (engineRequest_fields r (rangeOrder (rangeSeed σ) (http.Header r))
              fasthttp.zeroRequest) as (_ & _ & ->).
  rewrite Hbody, Hev. simpl. rewrite Henc. reflexivity.
Qed.

End Pipeline.

(** ** Two runs *)

Section TwoRuns.

Context `{RT : GoRuntime} `{CP : CorePackage}.

(** From a clean pool, what [adaptor] writes depends on the world only
    through the order in which the header map is visited. *)
Lemma adaptor_writes_the_same {W} `{WR : http.ResponseWriter W}
    (f : FiberLambdaALB) (w : W) (r : http.Request) (σ σ' : World) :
  pool_clean σ -> pool_clean σ' ->
  rangeOrder (rangeSeed σ) (http.Header r) = rangeOrder (rangeSeed σ') (http.Header r) ->
  fst (adaptor f w r σ) = fst (adaptor f w r σ').
Proof.
  intros Hc Hc' Hord.
  destruct (http.ending (http.Body r)) as [e|] eqn:He.
  - rewrite (adaptor_read_error f w r σ e He), (adaptor_read_error f w r σ' e He).
    reflexivity.
  - destruct (ResolveTCPAddr "tcp" (http.RemoteAddr r)) as [a|e] eqn:Hr.
    + rewrite (adaptor_handled f w r σ a He Hr), (adaptor_handled f w r σ' a He Hr).
      cbn [fst]. rewrite (acquire_clean σ Hc), (acquire_clean σ' Hc'), Hord. reflexivity.
    + rewrite (adaptor_resolve_error f w r σ e He Hr),
        (adaptor_resolve_error f w r σ' e He Hr).
      reflexivity.
Qed.

Lemma proxyInternal_returns_the_same (f : FiberLambdaALB) (conv : result http.Request)
    (σ σ' : World) :
  (forall r, conv = Ok r ->
     fst (adaptor f core.NewProxyResponseWriterALB r σ)
     = fst (adaptor f core.NewProxyResponseWriterALB r σ')) ->
  fst (proxyInternal f conv σ) = fst (proxyInternal f conv σ').
Proof.
  intros Hw. destruct conv as [r|e].
  - specialize (Hw r eq_refl).
    destruct (snd (GetProxyResponse (fst (adaptor f core.NewProxyResponseWriterALB r σ))))
      as [e|] eqn:Hc.
    + rewrite (proxyInternal_uncaptured f r σ e Hc).
      rewrite Hw in Hc. rewrite (proxyInternal_uncaptured f r σ' e Hc). reflexivity.
    + rewrite (proxyInternal_captured f r σ Hc).
      rewrite Hw in Hc. rewrite (proxyInternal_captured f r σ' Hc).
      cbn [fst]. rewrite Hw. reflexivity.
  - reflexivity.
Qed.

(** A run leaves the pool clean when it finds it clean. *)
Lemma proxyInternal_keeps_pool_clean (f : FiberLambdaALB) (conv : result http.Request)
    (σ : World) :
  pool_clean σ -> pool_clean (snd (proxyInternal f conv σ)).
Proof.
  intros Hc. destruct conv as [r|e].
  - assert (Had : pool_clean (snd (adaptor f core.NewProxyResponseWriterALB r σ))).
    { destruct (adaptor_cases f core.NewProxyResponseWriterALB r σ)
        as (w' & ranged & mid & -> & _).
      unfold pool_clean. simpl. constructor; [reflexivity | apply acquire_rest_clean, Hc]. }
    destruct (snd (GetProxyResponse (fst (adaptor f core.NewProxyResponseWriterALB r σ))))
      as [e|] eqn:Hcap.
    + rewrite (proxyInternal_uncaptured f r σ e Hcap). exact Had.
    + rewrite (proxyInternal_captured f r σ Hcap). exact Had.
  - exact Hc.
Qed.

(** C6, amended. Two calls of [Proxy] with the same event, one after the
    other, return the same event and the same error whenever the second
    call visits the header map of the request in the order the first call
    did: the request pool carries nothing from the first call into the
    second. *)
Theorem two_runs_agree_in_the_same_order
    (f : FiberLambdaALB) (ev : events.ALBTargetGroupRequest) (σ : World) :
  pool_clean σ ->
  (forall r, ProxyEventToHTTPRequest ev = Ok r ->
     rangeOrder (rangeSeed (snd (Proxy f ev σ))) (http.Header r)
     = rangeOrder (rangeSeed σ) (http.Header r)) ->
  fst (Proxy f ev (snd (Proxy f ev σ))) = fst (Proxy f ev σ)
  /\ pool_clean (snd (Proxy f ev σ)).
Proof.
  intros Hc Hord.
  assert (Hc' : pool_clean (snd (Proxy f ev σ))).
  { apply proxyInternal_keeps_pool_clean, Hc. }
  split; [| exact Hc'].
  unfold Proxy at 1 3. apply proxyInternal_returns_the_same.
  intros r Hconv. apply adaptor_writes_the_same; [exact Hc' | exact Hc |].
  apply Hord, Hconv.
Qed.

End TwoRuns.

(** ** Runs on the sample inputs *)


Lemma alternating_range_sound : range_sound (RT := Sample.alternating).
Proof.
  intros n m. simpl. destruct (Nat.even n); [reflexivity | apply reverse_Permutation].
Qed.

Lemma world_pool_clean : pool_clean Sample.world.
Proof. constructor. Qed.

Lemma noAddress_unresolvable : address_unresolvable (RT := Sample.runtime) Sample.noAddress.
Proof. split; [reflexivity | eexists; reflexivity]. Qed.

Lemma brokenBody_fails : body_read_fails Sample.brokenBody.
Proof. eexists; reflexivity. Qed.

Lemma failure_answers_gateway_timeout_witness :
  gateway_timeout_fallback
    (Proxy (RT := Sample.runtime) (CP := Sample.package (Err "illegal base64 data"))
       (NewALB Sample.echo) Sample.event Sample.world) Sample.world
  /\ gateway_timeout_fallback
       (Proxy (RT := Sample.runtime) (CP := Sample.rejecting (Ok Sample.request))
          (NewALB Sample.echo) Sample.event Sample.world) Sample.world.
Proof.
  split.
  - destruct (failure_answers_gateway_timeout (RT := Sample.runtime)
                (CP := Sample.package (Err "illegal base64 data"))
                (NewALB Sample.echo) Sample.cancelled Sample.event Sample.world)
      as (Hconv & _).
    apply (Hconv "illegal base64 data"). reflexivity.
  - destruct (failure_answers_gateway_timeout (RT := Sample.runtime)
                (CP := Sample.rejecting (Ok Sample.request))
                (NewALB Sample.echo) Sample.cancelled Sample.event Sample.world)
      as (_ & _ & Hcap & _).
    apply (Hcap Sample.request "captured data rejected"); reflexivity.
Defined.




Lemma unresolvable_address_writes_500_witness :
  events.StatusCode
    (fst (fst (Proxy (RT := Sample.runtime) (CP := Sample.package (Ok Sample.noAddress))
                 (NewALB Sample.echo) Sample.event Sample.world))) = 500.
Proof.
  destruct (unresolvable_address_writes_500 (RT := Sample.runtime)
              (CP := Sample.package (Ok Sample.noAddress))
              (NewALB Sample.echo) Sample.event Sample.noAddress Sample.world
              eq_refl noAddress_unresolvable)
    as (_ & _ & _ & Hres).
  apply Hres. reflexivity.
Defined.

Lemma pipeline_preserves_method_uri_body_witness :
  exists fctx : fasthttp.RequestCtx,
    handler_calls
      (trace (snd (Proxy (RT := Sample.runtime) (CP := Sample.package (Ok Sample.request))
                     (NewALB Sample.echo) Sample.event Sample.world))) = [fctx]
    /\ fasthttp.method (fasthttp.Header (fasthttp.Req fctx)) = "POST"
    /\ fasthttp.requestURI (fasthttp.Header (fasthttp.Req fctx)) = "/greet"
    /\ fasthttp.body (fasthttp.Req fctx) = bytes_of "hello".
Proof.
  apply (pipeline_preserves_method_uri_body (RT := Sample.runtime)
           (CP := Sample.package (Ok Sample.request))
           (NewALB Sample.echo) Sample.event Sample.request Sample.world
           (bytes_of "hello") Sample.addr eq_refl world_pool_clean eq_refl eq_refl).
Defined.

Lemma echo_handler_returns_hello_witness :
  exists resp,
    fst (Proxy (RT := Sample.runtime) (CP := Sample.package (Ok Sample.request))
           (NewALB Sample.echo) Sample.event Sample.world) = (resp, None)
    /\ events.StatusCode resp = 200
    /\ events.RespBody resp = "hello".
Proof.
  apply (echo_handler_returns_hello (RT := Sample.runtime)
           (CP := Sample.package (Ok Sample.request))
           (NewALB Sample.echo) Sample.event Sample.request Sample.world Sample.addr).
  - intros ctx. split; reflexivity.
  - reflexivity.
  - reflexivity.
  - reflexivity.
  - reflexivity.
  - exact world_pool_clean.
  - reflexivity.
  - reflexivity.
Defined.

Lemma two_runs_agree_in_the_same_order_witness :
  fst (Sample.steady (snd (Sample.steady Sample.world))) = fst (Sample.steady Sample.world)
  /\ pool_clean (snd (Sample.steady Sample.world)).
Proof.
  apply (two_runs_agree_in_the_same_order (RT := Sample.runtime)
           (CP := Sample.package (Ok Sample.request))
           (NewALB Sample.headerNames) Sample.event Sample.world world_pool_clean).
  intros r _. reflexivity.
Defined.

(** C6, as stated, fails: the runtime is free to visit the header map in
    another order in the second call, and a handler that is a function of
    the request it receives can tell. The request has a Host header and
    two headers of ordinary names, X-A and X-B; the handler answers with
    the header names in the order [VisitAll] gives them. The first call
    answers "Host,Content-Length,X-A,X-B", the second
    "Host,Content-Length,X-B,X-A". *)
Lemma two_runs_differ_when_order_differs :
  range_sound (RT := Sample.alternating)
  /\ pool_clean Sample.world
  /\ events.RespBody (fst (fst (Sample.shuffled Sample.world)))
     = "Host,Content-Length,X-A,X-B"
  /\ events.RespBody (fst (fst (Sample.shuffled (snd (Sample.shuffled Sample.world)))))
     = "Host,Content-Length,X-B,X-A"
  /\ fst (Sample.shuffled (snd (Sample.shuffled Sample.world)))
     <> fst (Sample.shuffled Sample.world).
Proof.
  split; [exact alternating_range_sound |].
  split; [exact world_pool_clean |].
  split; [vm_compute; reflexivity |].
  split; [vm_compute; reflexivity |].
  intros Heq. apply (f_equal (fun out => events.RespBody (fst out))) in Heq.
  vm_compute in Heq. discriminate Heq.
Qed.

Lemma cancelled_context_answers_gateway_timeout_witness :
  gateway_timeout_fallback
    (ProxyWithContext (RT := Sample.runtime) (CP := Sample.package (Ok Sample.request))
       (NewALB Sample.echo) Sample.cancelled Sample.event Sample.world) Sample.world.
Proof.
  destruct (cancelled_context_answers_gateway_timeout (RT := Sample.runtime)
              (CP := Sample.package (Ok Sample.request))
              (NewALB Sample.echo) Sample.cancelled Sample.event Sample.world
              "context canceled" eq_refl)
    as (_ & Hfallback & _).
  exact Hfallback.
Defined.

Lemma low_level_failure_returns_nil_error_witness :
  exists resp,
    fst (Proxy (RT := Sample.runtime) (CP := Sample.package (Ok Sample.brokenBody))
           (NewALB Sample.echo) Sample.event Sample.world) = (resp, None)
    /\ events.StatusCode resp = 500.
Proof.
  destruct (low_level_failure_returns_nil_error (RT := Sample.runtime)
              (CP := Sample.package (Ok Sample.brokenBody))
              (NewALB Sample.echo) Sample.event Sample.brokenBody Sample.world
              eq_refl (or_introl brokenBody_fails) eq_refl)
    as (resp & Hres & Hst & _).
  exists resp. split; [exact Hres | exact Hst].
Defined.

Lemma body_read_failure_writes_500_witness :
  core.status
    (fst (adaptor (RT := Sample.runtime)
            (WR := core_ResponseWriter (RT := Sample.runtime)) (NewALB Sample.echo)
            core.NewProxyResponseWriterALB Sample.brokenBody Sample.world)) = Some 500.
Proof.
  destruct (body_read_failure_writes_500 (RT := Sample.runtime)
              (CP := Sample.package (Ok Sample.brokenBody))
              (WR := core_ResponseWriter (RT := Sample.runtime))
              (NewALB Sample.echo) core.NewProxyResponseWriterALB
              Sample.brokenBody Sample.world brokenBody_fails)
    as (_ & _ & _ & Hst & _).
  exact Hst.
Defined.

(** * Further properties *)

(** ** The header pairs of the engine request *)

Section EngineHeaders.

Context `{RT : GoRuntime} {W : Type} `{WR : http.ResponseWriter W}.
Variables (f : FiberLambdaALB) (w : W) (r : http.Request).







End EngineHeaders.

(** ** The outcomes of a call *)

Lemma append_empty (s : string) : s +:+ EmptyString = s.
Proof.
  induction s as [|c s IH]; [reflexivity |].
  change (String c (s +:+ EmptyString) = String c s). rewrite IH. reflexivity.
Qed.

Section Outcomes.

Context `{RT : GoRuntime} `{CP : CorePackage}.

Lemma proxyInternal_outcome (f : FiberLambdaALB) (conv : result http.Request) (σ : World) :
  answered_or_fallback (proxyInternal f conv σ) σ.
Proof.
  destruct conv as [r|e].
  - destruct (snd (GetProxyResponse (fst (adaptor f core.NewProxyResponseWriterALB r σ))))
      as [e|] eqn:Hc.
    + right. apply (fallback_uncaptured f r σ e Hc).
    + left. rewrite (proxyInternal_captured f r σ Hc). cbn [fst snd].
      split; [reflexivity | apply adaptor_logs_nothing].
  - right. apply fallback_unconverted.
Qed.

(** X4. Every call of [Proxy] and of [ProxyWithContext] ends in one of
    two ways: with a nil error and nothing logged, or with the fixed
    gateway-timeout event, a non-nil error, and that error as the one new
    line of the log. An error never comes with another event, and nothing
    is logged without an error being returned. *)
Theorem every_call_answers_or_falls_back
    (f : FiberLambdaALB) (ctx : context.Context)
    (ev : events.ALBTargetGroupRequest) (σ : World) :
  answered_or_fallback (Proxy f ev σ) σ
  /\ answered_or_fallback (ProxyWithContext f ctx ev σ) σ
  /\ (forall e, snd (fst (Proxy f ev σ)) = Some e ->
        fst (fst (Proxy f ev σ)) = core.GatewayTimeoutALB
        /\ log_lines (trace (snd (Proxy f ev σ))) = (log_lines (trace σ) ++ [e])%list).
Proof.
  split; [apply proxyInternal_outcome |].
  split; [apply proxyInternal_outcome |].
  intros e He.
  destruct (proxyInternal_outcome f (ProxyEventToHTTPRequest ev) σ)
    as [[Hnil _] | (msg & Hout & Hlog)].
  - unfold Proxy in He. rewrite Hnil in He. discriminate He.
  - unfold Proxy in *. rewrite Hout in *. simpl in He. injection He as <-.
    split; [reflexivity | exact Hlog].
Qed.

(** X5. The error that a call returns carries the message of the error
    underneath: after a failed conversion it reads "Could not convert proxy
    event to request: " followed by the message of the conversion error,
    and after a failed capture "Error while generating proxy response: "
    followed by the message of the capture error. *)
Theorem returned_error_wraps_the_cause
    (f : FiberLambdaALB) (ev : events.ALBTargetGroupRequest) (σ : World) :
  (forall e, ProxyEventToHTTPRequest ev = Err e ->
     snd (fst (Proxy f ev σ))
     = Some ("Could not convert proxy event to request: " +:+ e))
  /\ (forall r e, ProxyEventToHTTPRequest ev = Ok r ->
     snd (GetProxyResponse (fst (adaptor f core.NewProxyResponseWriterALB r σ))) = Some e ->
     snd (fst (Proxy f ev σ))
     = Some ("Error while generating proxy response: " +:+ e)).
Proof.
  unfold Proxy. split.
  - intros e ->. rewrite proxyInternal_unconverted. cbn [fst snd Sprintf_v].
    simpl. rewrite append_empty. reflexivity.
  - intros r e -> He. rewrite (proxyInternal_uncaptured f r σ e He). cbn [fst snd].
    simpl. rewrite append_empty. reflexivity.
Qed.

Lemma proxyInternal_handler_trace
    (f : FiberLambdaALB) (conv : result http.Request) (σ : World) :
  handler_calls (trace (snd (proxyInternal f conv σ))) =
  (handler_calls (trace σ) ++
   match conv with
   | Ok r =>
       match http.ending (http.Body r), ResolveTCPAddr "tcp" (http.RemoteAddr r) with
       | None, Ok a =>
           [ {| fasthttp.Req :=
                  engineRequest r (rangeOrder (rangeSeed σ) (http.Header r))
                    (fst (fasthttp.AcquireRequest (pool σ)));
                fasthttp.Resp := fasthttp.zeroResponse;
                fasthttp.remoteAddr := a |} ]
       | _, _ => []
       end
   | Err _ => []
   end)%list.
Proof.
  destruct conv as [r|e].
  - rewrite proxyInternal_handler_calls.
    destruct (http.ending (http.Body r)) as [e|] eqn:He.
    + rewrite (adaptor_read_error f _ r σ e He). simpl.
      rewrite handler_calls_app. reflexivity.
    + destruct (ResolveTCPAddr "tcp" (http.RemoteAddr r)) as [a|e] eqn:Hr.
      * rewrite (adaptor_handled f _ r σ a He Hr). simpl.
        rewrite handler_calls_app. reflexivity.
      * rewrite (adaptor_resolve_error f _ r σ e He Hr). simpl.
        rewrite handler_calls_app. reflexivity.
  - rewrite proxyInternal_unconverted. simpl. rewrite handler_calls_app. reflexivity.
Qed.

(** X6. A call invokes the handler at most once: once when the event
    converts, the body can be read and the remote address resolves, and
    not at all otherwise. The context the handler receives holds an empty
    response and the address that the remote address of the request
    resolves to. *)
Theorem handler_called_at_most_once
    (f : FiberLambdaALB) (conv : result http.Request) (σ : World) :
  exists calls : list fasthttp.RequestCtx,
    handler_calls (trace (snd (proxyInternal f conv σ)))
      = (handler_calls (trace σ) ++ calls)%list
    /\ (length calls <= 1)%nat
    /\ (calls <> [] <->
        exists r a, conv = Ok r
                    /\ http.ending (http.Body r) = None
                    /\ ResolveTCPAddr "tcp" (http.RemoteAddr r) = Ok a)
    /\ Forall (fun fctx =>
                 fasthttp.Resp fctx = fasthttp.zeroResponse
                 /\ exists r, conv = Ok r
                              /\ ResolveTCPAddr "tcp" (http.RemoteAddr r)
                                 = Ok (fasthttp.remoteAddr fctx)) calls.
Proof.
  eexists. split; [apply proxyInternal_handler_trace |].
  destruct conv as [r|e].
  - destruct (http.ending (http.Body r)) as [e|] eqn:He.
    + split; [simpl; lia |]. split; [| constructor].
      split; [intros Hne; contradiction |].
      intros (r' & a & Hr' & He' & _). injection Hr' as <-. congruence.
    + destruct (ResolveTCPAddr "tcp" (http.RemoteAddr r)) as [a|e] eqn:Hr.
      * split; [simpl; lia |]. split.
        -- split; [intros _; exists r, a; auto | intros _; discriminate].
        -- constructor; [| constructor]. split; [reflexivity |].
           exists r. split; [reflexivity | exact Hr].
      * split; [simpl; lia |]. split; [| constructor].
        split; [intros Hne; contradiction |].
        intros (r' & a & Hr' & _ & Hres). injection Hr' as <-. congruence.
  - split; [simpl; lia |]. split; [| constructor].
    split; [intros Hne; contradiction |].
    intros (r' & a & Hr' & _). discriminate Hr'.
Qed.

(** X7. When the handler has been invoked and the capture step accepts
    what was written, the event that [Proxy] returns carries the status
    code of the handler's response (200 when the handler set none) and its
    body as the capture step encodes it, with a nil error. *)
Theorem response_passes_through
    (f : FiberLambdaALB) (ev : events.ALBTargetGroupRequest)
    (r : http.Request) (σ : World) (a : net.TCPAddr) :
  ProxyEventToHTTPRequest ev = Ok r ->
  http.ending (http.Body r) = None ->
  ResolveTCPAddr "tcp" (http.RemoteAddr r) = Ok a ->
  snd (GetProxyResponse (fst (adaptor f core.NewProxyResponseWriterALB r σ))) = None ->
  let fctx := fasthttp.Init
                (engineRequest r (rangeOrder (rangeSeed σ) (http.Header r))
                   (fst (fasthttp.AcquireRequest (pool σ)))) a in
  let resp := fasthttp.Resp (fiber.Handler (app f) fctx) in
  snd (fst (Proxy f ev σ)) = None
  /\ events.StatusCode (fst (fst (Proxy f ev σ)))
     = (if fasthttp.statusCode resp =? 0 then 200 else fasthttp.statusCode resp)
  /\ events.RespBody (fst (fst (Proxy f ev σ)))
     = fst (encodeBody (fasthttp.respBody resp)).
Proof.
  intros Hconv He Hr Hcap fctx resp. unfold Proxy. rewrite Hconv.
  rewrite (proxyInternal_captured f r σ Hcap). cbn [fst snd].
  split; [reflexivity |].
  destruct (GetProxyResponse_accepted _ Hcap) as [-> ->].
  rewrite (adaptor_handled f core.NewProxyResponseWriterALB r σ a He Hr). cbn [fst].
  fold fctx. fold resp.
  destruct (respond_captured resp core.NewProxyResponseWriterALB) as [-> ->].
  split; reflexivity.
Qed.

End Outcomes.

(** ** The calls on the response writer *)

Section WriterCalls.

Context `{RT : GoRuntime}.

Lemma VisitAll_recorded (resp : fasthttp.Response) (w : list WriterCall) :
  fasthttp.VisitAll (fun k v w => http.Header_Add k v w) resp w
  = (w ++ map (fun kv => CallHeaderAdd (fst kv) (snd kv)) (fasthttp.respHeader resp))%list.
Proof.
  unfold fasthttp.VisitAll. revert w.
  induction (fasthttp.respHeader resp) as [|kv kvs IH]; intros w; simpl.
  - symmetry. apply List.app_nil_r.
  - rewrite IH, <- List.app_assoc. reflexivity.
Qed.

(** X8. On every path [adaptor] uses the response writer as the
    interface asks: first the header changes, then one [WriteHeader], then
    one [Write], and nothing after. Either the status written is 500 with
    the status message and a newline as the body and the handler has not
    been invoked, or the handler has been invoked once and what is written
    is its response: one [Header().Add] for each header pair in the order
    [VisitAll] gives them, its status code, its body. What was written
    before the call is left as it was. *)
Theorem writer_is_used_in_order
    (f : FiberLambdaALB) (w : list WriterCall) (r : http.Request) (σ : World) :
  exists (hs : list WriterCall) (code : Z) (p : bytes),
    fst (adaptor f w r σ) = (w ++ hs ++ [CallWriteHeader code; CallWrite p])%list
    /\ Forall header_call hs
    /\ ((code = 500
         /\ p = (bytes_of (StatusMessage 500) ++ http.newline)%list
         /\ handler_not_invoked σ (snd (adaptor f w r σ)))
        \/ exists fctx,
            handler_calls (trace (snd (adaptor f w r σ)))
              = (handler_calls (trace σ) ++ [fctx])%list
            /\ hs = map (fun kv => CallHeaderAdd (fst kv) (snd kv))
                      (fasthttp.respHeader (fasthttp.Resp (fiber.Handler (app f) fctx)))
            /\ code = fasthttp.StatusCode (fasthttp.Resp (fiber.Handler (app f) fctx))
            /\ p = fasthttp.Body (fasthttp.Resp (fiber.Handler (app f) fctx))).
Proof.
  assert (Herr : internalServerError w
                 = (w ++ [CallHeaderSet "Content-Type" "text/plain; charset=utf-8";
                          CallHeaderSet "X-Content-Type-Options" "nosniff"]
                      ++ [CallWriteHeader 500;
                          CallWrite (bytes_of (StatusMessage 500) ++ http.newline)])%list).
  { unfold internalServerError, http.Error.
    cbn [http.Header_Set http.WriteHeader http.Write recording_ResponseWriter].
    rewrite <- !List.app_assoc. reflexivity. }
  assert (Hhs : Forall header_call
                  [CallHeaderSet "Content-Type" "text/plain; charset=utf-8";
                   CallHeaderSet "X-Content-Type-Options" "nosniff"]).
  { repeat constructor. }
  destruct (http.ending (http.Body r)) as [e|] eqn:He.
  - rewrite (adaptor_read_error f w r σ e He). cbn [fst snd].
    eexists _, _, _. split; [exact Herr |]. split; [exact Hhs |].
    left. split; [reflexivity |]. split; [reflexivity | apply afterAdaptor_quiet].
  - destruct (ResolveTCPAddr "tcp" (http.RemoteAddr r)) as [a|e] eqn:Hr.
    + rewrite (adaptor_handled f w r σ a He Hr). cbn [fst snd].
      set (fctx := fasthttp.Init
                     (engineRequest r (rangeOrder (rangeSeed σ) (http.Header r))
                        (fst (fasthttp.AcquireRequest (pool σ)))) a).
      set (resp := fasthttp.Resp (fiber.Handler (app f) fctx)).
      exists (map (fun kv => CallHeaderAdd (fst kv) (snd kv)) (fasthttp.respHeader resp)),
        (fasthttp.StatusCode resp), (fasthttp.Body resp).
      split; [| split].
      * unfold respond. rewrite VisitAll_recorded.
        cbn [http.WriteHeader http.Write recording_ResponseWriter].
        rewrite <- !List.app_assoc. reflexivity.
      * apply Forall_forall. intros c Hc.
        apply list_elem_of_fmap in Hc. destruct Hc as (kv & -> & _). exact I.
      * right. exists fctx. split; [| split; [| split]; reflexivity].
        cbn [trace afterAdaptor]. rewrite handler_calls_app. reflexivity.
    + rewrite (adaptor_resolve_error f w r σ e He Hr). cbn [fst snd].
      eexists _, _, _. split; [exact Herr |]. split; [exact Hhs |].
      left. split; [reflexivity |]. split; [reflexivity | apply afterAdaptor_quiet].
Qed.

End WriterCalls.

(** ** One call after the other *)

Section Sequences.

Context `{RT : GoRuntime} `{CP : CorePackage}.

Lemma proxyAll_cons (f : FiberLambdaALB) (ev : events.ALBTargetGroupRequest)
    (evs : list events.ALBTargetGroupRequest) (σ : World) :
  proxyAll f (ev :: evs) σ =
  (fst (Proxy f ev σ) :: fst (proxyAll f evs (snd (Proxy f ev σ))),
   snd (proxyAll f evs (snd (Proxy f ev σ)))).
Proof.
  cbn [proxyAll]. unfold mbind, M_bind, mret, M_ret.
  destruct (Proxy f ev σ) as [out σ1]. cbn [fst snd].
  destruct (proxyAll f evs σ1) as [outs σ2]. reflexivity.
Qed.

(** X10. Over any sequence of calls that starts with a pool of reset
    requests, every engine request handed to the handler is built from the
    request of one of the events alone, starting from an empty engine
    request: nothing of an earlier call, body, method or header, is left in
    the pooled request that a later call takes. The pool holds reset
    requests again when the sequence ends. *)
Theorem calls_do_not_leak_into_each_other
    (f : FiberLambdaALB) (evs : list events.ALBTargetGroupRequest) (σ : World) :
  pool_clean σ ->
  pool_clean (snd (proxyAll f evs σ))
  /\ exists calls : list fasthttp.RequestCtx,
       handler_calls (trace (snd (proxyAll f evs σ)))
         = (handler_calls (trace σ) ++ calls)%list
       /\ Forall (built_from evs) calls.
Proof.
  revert σ. induction evs as [|ev evs IH]; intros σ Hclean.
  - cbn [proxyAll]. unfold mret, M_ret. cbn [fst snd].
    split; [exact Hclean |]. exists []. split; [symmetry; apply List.app_nil_r | constructor].
  - rewrite proxyAll_cons. cbn [fst snd].
    assert (Hclean1 : pool_clean (snd (Proxy f ev σ))).
    { apply proxyInternal_keeps_pool_clean, Hclean. }
    destruct (IH (snd (Proxy f ev σ)) Hclean1) as (Hclean2 & calls2 & Hcalls2 & Hbuilt2).
    split; [exact Hclean2 |].
    assert (Hfirst : exists calls1,
               handler_calls (trace (snd (Proxy f ev σ)))
               = (handler_calls (trace σ) ++ calls1)%list
               /\ Forall (built_from (ev :: evs)) calls1).
    { unfold Proxy. rewrite proxyInternal_handler_trace.
      eexists. split; [reflexivity |].
      destruct (ProxyEventToHTTPRequest ev) as [r|e] eqn:Hconv; [| constructor].
      destruct (http.ending (http.Body r)); [constructor |].
      destruct (ResolveTCPAddr "tcp" (http.RemoteAddr r)); [| constructor].
      constructor; [| constructor].
      exists ev, r, (rangeSeed σ). split; [apply list_elem_of_here |].
      split; [exact Hconv |]. cbn [fasthttp.Req].
      rewrite (acquire_clean σ Hclean). reflexivity. }
    destruct Hfirst as (calls1 & Hcalls1 & Hbuilt1).
    exists (calls1 ++ calls2)%list. split.
    + rewrite Hcalls2, Hcalls1, <- List.app_assoc. reflexivity.
    + apply Forall_app. split; [exact Hbuilt1 |].
      eapply Forall_impl; [exact Hbuilt2 |].
      intros fctx (ev' & r & n & Hin & Hconv & Hreq).
      exists ev', r, n. split; [apply list_elem_of_further, Hin |]. split; assumption.
Qed.

Lemma range_of_few (n : nat) (m : gmap string (list string)) :
  range_sound -> (size m <= 1)%nat -> rangeOrder n m = map_to_list m.
Proof.
  intros Hsound Hsize. specialize (Hsound n m).
  rewrite <- length_map_to_list in Hsize.
  destruct (map_to_list m) as [|kv [|kv' l]].
  - apply Permutation_nil_r, Hsound.
  - apply Permutation_singleton_r, Hsound.
  - simpl in Hsize. lia.
Qed.

(** X11. An event whose request carries at most one header name is
    answered the same way in every call: from any two worlds with reset
    pools [Proxy] returns the same event and the same error, whatever
    order the runtime picks for its [range] statements. *)
Theorem few_header_names_answer_the_same
    (f : FiberLambdaALB) (ev : events.ALBTargetGroupRequest) (σ σ' : World) :
  range_sound ->
  pool_clean σ ->
  pool_clean σ' ->
  (forall r, ProxyEventToHTTPRequest ev = Ok r -> (size (http.Header r) <= 1)%nat) ->
  fst (Proxy f ev σ) = fst (Proxy f ev σ').
Proof.
  intros Hsound Hclean Hclean' Hfew. unfold Proxy.
  apply proxyInternal_returns_the_same. intros r Hconv.
  apply adaptor_writes_the_same; [exact Hclean | exact Hclean' |].
  rewrite !range_of_few by (try exact Hsound; apply Hfew, Hconv). reflexivity.
Qed.

End Sequences.

(** ** Further runs on the sample inputs *)

Lemma warm_pool_clean : pool_clean Sample2.warm.
Proof. repeat constructor. Qed.




Lemma every_call_answers_or_falls_back_witness :
  fst (fst (Proxy (RT := Sample.runtime) (CP := Sample2.byPath)
              (NewALB Sample.echo) (Sample2.withPath "/malformed") Sample.world))
  = core.GatewayTimeoutALB.
Proof.
  destruct (every_call_answers_or_falls_back (RT := Sample.runtime) (CP := Sample2.byPath)
              (NewALB Sample.echo) Sample.cancelled (Sample2.withPath "/malformed")
              Sample.world)
    as (_ & _ & Herr).
  destruct (Herr "Could not convert proxy event to request: illegal base64 data" eq_refl)
    as [Hev _].
  exact Hev.
Defined.

Lemma returned_error_wraps_the_cause_witness :
  snd (fst (Proxy (RT := Sample.runtime) (CP := Sample2.byPath)
              (NewALB Sample.echo) (Sample2.withPath "/malformed") Sample.world))
  = Some "Could not convert proxy event to request: illegal base64 data"
  /\ snd (fst (Proxy (RT := Sample.runtime) (CP := Sample.rejecting (Ok Sample.request))
                 (NewALB Sample.echo) Sample.event Sample.world))
     = Some "Error while generating proxy response: captured data rejected".
Proof.
  split.
  - destruct (returned_error_wraps_the_cause (RT := Sample.runtime) (CP := Sample2.byPath)
                (NewALB Sample.echo) (Sample2.withPath "/malformed") Sample.world)
      as [Hconv _].
    apply (Hconv "illegal base64 data"). reflexivity.
  - destruct (returned_error_wraps_the_cause (RT := Sample.runtime)
                (CP := Sample.rejecting (Ok Sample.request))
                (NewALB Sample.echo) Sample.event Sample.world)
      as [_ Hcap].
    apply (Hcap Sample.request "captured data rejected"); reflexivity.
Defined.

Lemma response_passes_through_witness :
  snd (fst (Proxy (RT := Sample.runtime) (CP := Sample.package (Ok Sample.request))
              (NewALB Sample2.created) Sample.event Sample2.warm)) = None
  /\ events.StatusCode
       (fst (fst (Proxy (RT := Sample.runtime) (CP := Sample.package (Ok Sample.request))
                    (NewALB Sample2.created) Sample.event Sample2.warm))) = 201
  /\ events.RespBody
       (fst (fst (Proxy (RT := Sample.runtime) (CP := Sample.package (Ok Sample.request))
                    (NewALB Sample2.created) Sample.event Sample2.warm))) = "created".
Proof.
  apply (response_passes_through (RT := Sample.runtime)
           (CP := Sample.package (Ok Sample.request))
           (NewALB Sample2.created) Sample.event Sample.request Sample2.warm Sample.addr
           eq_refl eq_refl eq_refl eq_refl).
Defined.

Lemma calls_do_not_leak_into_each_other_witness :
  pool_clean (snd (proxyAll (RT := Sample.alternating) (CP := Sample2.byPath)
                     (NewALB Sample.headerNames) Sample2.batch Sample.world))
  /\ exists calls : list fasthttp.RequestCtx,
       handler_calls
         (trace (snd (proxyAll (RT := Sample.alternating) (CP := Sample2.byPath)
                        (NewALB Sample.headerNames) Sample2.batch Sample.world)))
       = (handler_calls (trace Sample.world) ++ calls)%list
       /\ Forall (built_from (RT := Sample.alternating) (CP := Sample2.byPath) Sample2.batch)
            calls.
Proof.
  apply (calls_do_not_leak_into_each_other (RT := Sample.alternating) (CP := Sample2.byPath)
           (NewALB Sample.headerNames) Sample2.batch Sample.world world_pool_clean).
Defined.

Lemma few_header_names_answer_the_same_witness :
  fst (Proxy (RT := Sample.alternating) (CP := Sample2.byPath)
         (NewALB Sample.headerNames) (Sample2.withPath "/first") Sample.world)
  = fst (Proxy (RT := Sample.alternating) (CP := Sample2.byPath)
           (NewALB Sample.headerNames) (Sample2.withPath "/first") Sample2.warm).
Proof.
  apply (few_header_names_answer_the_same (RT := Sample.alternating) (CP := Sample2.byPath)
           (NewALB Sample.headerNames) (Sample2.withPath "/first")
           Sample.world Sample2.warm
           alternating_range_sound world_pool_clean warm_pool_clean).
  intros r Hconv. injection Hconv as <-. vm_compute. lia.
Defined.
